(** * Cobo API helper: request signing and the HTTP wrapper

    A shallow embedding of [lib/helper.js] (the module that exports
    [signRequest], [apiRequest], [createWallet], [getDepositAddress] and
    [withdrawETH]) and the properties its specification states, followed by
    the example script [src/index.js] and further properties of both.

    JavaScript values are an inductive type, JavaScript functions are
    computations in a monad over an explicit world (clock, network, console)
    whose results are either a value or a thrown exception.  The functions of
    the libraries the module calls ([crypto], [elliptic], [JSON.parse],
    [Date.prototype.toISOString]) are the fields of a class. *)

From Stdlib Require Import List String Ascii ZArith NArith Bool Lia.
From Stdlib Require Import Sorting.Sorted Sorting.Permutation.
From Stdlib Require Import Numbers.DecimalString.
From Stdlib Require DecimalZ DecimalPos Eqdep_dec.
Import ListNotations.

Local Open Scope list_scope.
Local Open Scope string_scope.

Set Warnings "-register-all".

(** ** JavaScript values *)

(** The numbers of the model are the safe integers, those of absolute
    value at most [2^53 - 1]: each is a JavaScript number, and
    [Number.prototype.toString] writes it as its plain decimal numeral.
    Other numbers (fractions, larger magnitudes) have no value here. *)
Definition max_safe : Z := 9007199254740991.

Definition is_safe (z : Z) : bool := (Z.abs z <=? max_safe)%Z.

Record number : Type := mkNumber {
  to_Z : Z;
  number_safe : is_safe to_Z = true
}.

(** The number written by an integer literal in the safe range ([0] for
    an integer outside it). *)
Definition num (z : Z) : number :=
  match is_safe z as b return is_safe z = b -> number with
  | true => fun safe => mkNumber z safe
  | false => fun _ => mkNumber 0 eq_refl
  end eq_refl.

(** The values the module handles: what [JSON.parse] can return, plus
    [undefined].  Strings are sequences of code units below 128 (ASCII
    text).  An object is the list of its own enumerable properties in
    enumeration order; none of its properties is a function. *)
Inductive value : Type :=
| JUndefined
| JNull
| JBool (b : bool)
| JNum (n : number)
| JStr (s : string)
| JArr (xs : list value)
| JObj (props : list (string * value)).

(** A thrown JavaScript error: constructor name and message. *)
Record exn : Type := Exn { ename : string; emessage : string }.

Definition Error (msg : string) : exn := Exn "Error" msg.
Definition TypeError (msg : string) : exn := Exn "TypeError" msg.
Definition SyntaxError (msg : string) : exn := Exn "SyntaxError" msg.

(** Result of evaluating an expression: a value or a throw. *)
Inductive Res (A : Type) : Type :=
| Ok (a : A)
| Throw (e : exn).
Arguments Ok {A} a.
Arguments Throw {A} e.

(** ** Primitive operations of the language *)

Module JS.

(** The decimal numeral of an integer. *)
Definition decimal (z : Z) : string :=
  NilZero.string_of_int (Z.to_int z).

(** [Number.prototype.toString], on the numbers of the model. *)
Definition Number_toString (n : number) : string := decimal (to_Z n).

(** [ToBoolean]: the falsy values are [undefined], [null], [false], [0]
    and the empty string. *)
Definition truthy (v : value) : bool :=
  match v with
  | JUndefined | JNull => false
  | JBool b => b
  | JNum n => negb (to_Z n =? 0)%Z
  | JStr s => negb (s =? "")
  | JArr _ | JObj _ => true
  end.

(** [a || b] *)
Definition or_else (a b : value) : value := if truthy a then a else b.

(** A parameter default [p = d]: used only when the argument is
    [undefined]. *)
Definition default_arg (v d : value) : value :=
  match v with JUndefined => d | _ => v end.

(** The [typeof] operator. *)
Definition typeof (v : value) : string :=
  match v with
  | JUndefined => "undefined"
  | JNull | JArr _ | JObj _ => "object"
  | JBool _ => "boolean"
  | JNum _ => "number"
  | JStr _ => "string"
  end.

Definition isArray (v : value) : bool :=
  match v with JArr _ => true | _ => false end.

Definition nullish (v : value) : bool :=
  match v with JUndefined | JNull => true | _ => false end.

Fixpoint assoc (key : string) (props : list (string * value)) : option value :=
  match props with
  | [] => None
  | (k, v) :: rest => if k =? key then Some v else assoc key rest
  end.

(** Whether an object has an own property [key]. *)
Definition has_own (key : string) (props : list (string * value)) : bool :=
  match assoc key props with Some _ => true | None => false end.

(** The first throw of a list of results, or all their values. *)
Fixpoint all_ok {A} (l : list (Res A)) : Res (list A) :=
  match l with
  | [] => Ok []
  | Ok a :: t => match all_ok t with Ok r => Ok (a :: r) | Throw e => Throw e end
  | Throw e :: _ => Throw e
  end.

Definition not_primitive : exn :=
  TypeError "Cannot convert object to primitive value".

(** [ToString], as a template literal or a string concatenation applies
    it.  An object prints as [[object Object]] through the inherited
    [toString]; an object with an own [toString] property (which is not a
    function) cannot be converted, and the conversion throws a TypeError.
    An array prints its elements joined by commas, [null] and [undefined]
    elements printed as nothing, and throws when an element does. *)
Fixpoint ToString (v : value) : Res string :=
  match v with
  | JUndefined => Ok "undefined"
  | JNull => Ok "null"
  | JBool true => Ok "true"
  | JBool false => Ok "false"
  | JNum n => Ok (Number_toString n)
  | JStr s => Ok s
  | JArr xs =>
      match all_ok (map (fun x => if nullish x then Ok "" else ToString x) xs)
      with
      | Ok parts => Ok (String.concat "," parts)
      | Throw e => Throw e
      end
  | JObj props =>
      if has_own "toString" props then Throw not_primitive
      else Ok "[object Object]"
  end.

(** [String.prototype.toUpperCase] on ASCII text. *)
Definition upper_ascii (c : ascii) : ascii :=
  let n := nat_of_ascii c in
  if (97 <=? n)%nat && (n <=? 122)%nat then ascii_of_nat (n - 32) else c.

Fixpoint toUpperCase (s : string) : string :=
  match s with
  | EmptyString => EmptyString
  | String c r => String (upper_ascii c) (toUpperCase r)
  end.

(** Index keys ["0"], ["1"], ... of an array or a string of length [n]. *)
Definition index_keys (n : nat) : list string :=
  map (fun i => decimal (Z.of_nat i)) (seq 0 n).

Fixpoint chars (s : string) : list value :=
  match s with
  | EmptyString => []
  | String c r => JStr (String c EmptyString) :: chars r
  end.

(** Own enumerable string-keyed properties, in enumeration order. *)
Definition own_props (v : value) : list (string * value) :=
  match v with
  | JObj props => props
  | JArr xs => combine (index_keys (List.length xs)) xs
  | JStr s => combine (index_keys (String.length s)) (chars s)
  | _ => []
  end.

(** The value of [v[key]] for [v] other than [null] and [undefined]: an own
    property, the [length] of an array or string, else [undefined].
    (Properties inherited from the built-in prototypes are left out; the
    module reads none of them.) *)
Definition prop_of (v : value) (key : string) : value :=
  match assoc key (own_props v) with
  | Some x => x
  | None =>
      match v with
      | JArr xs =>
          if key =? "length" then JNum (num (Z.of_nat (List.length xs)))
          else JUndefined
      | JStr s =>
          if key =? "length" then JNum (num (Z.of_nat (String.length s)))
          else JUndefined
      | _ => JUndefined
      end
  end.

(** The error of reading property [key] of [null] or [undefined] (message
    as V8 words it). *)
Definition cannot_read (v : value) (key : string) : exn :=
  TypeError ("Cannot read properties of "
             ++ (match v with JNull => "null" | _ => "undefined" end)
             ++ " (reading '" ++ key ++ "')").

(** Property read [v[key]] / [v.key]: a TypeError on [null] and
    [undefined]. *)
Definition get_prop (v : value) (key : string) : Res value :=
  if nullish v then Throw (cannot_read v key) else Ok (prop_of v key).

(** [Object.keys]: a TypeError on [null] and [undefined]. *)
Definition Object_keys (v : value) : Res (list string) :=
  if nullish v then
    Throw (TypeError "Cannot convert undefined or null to object")
  else Ok (map fst (own_props v)).

(** *** [Array.prototype.sort] with the default comparator *)

(** Ascending order of code units; [String.leb] is that order. *)
Fixpoint insert_sorted (k : string) (l : list string) : list string :=
  match l with
  | [] => [k]
  | h :: t => if (k <=? h) then k :: l else h :: insert_sorted k t
  end.

Fixpoint sort (l : list string) : list string :=
  match l with
  | [] => []
  | h :: t => insert_sorted h (sort t)
  end.

(** *** [JSON.stringify] (one argument) *)

Definition hex_digit (n : nat) : ascii :=
  if (n <? 10)%nat then ascii_of_nat (48 + n) else ascii_of_nat (87 + n).

(** [QuoteJSONString] on one code unit. *)
Definition quote_char (c : ascii) : string :=
  let n := nat_of_ascii c in
  if (n =? 8)%nat then "\b"
  else if (n =? 9)%nat then "\t"
  else if (n =? 10)%nat then "\n"
  else if (n =? 12)%nat then "\f"
  else if (n =? 13)%nat then "\r"
  else if (n =? 34)%nat then String "\" (String c EmptyString)
  else if (n =? 92)%nat then "\\"
  else if (n <? 32)%nat then
    "\u00" ++ String (hex_digit (n / 16)) (String (hex_digit (n mod 16)) EmptyString)
  else String c EmptyString.

Fixpoint quote_body (s : string) : string :=
  match s with
  | EmptyString => EmptyString
  | String c r => quote_char c ++ quote_body r
  end.

Definition dquote : string := String (ascii_of_nat 34) EmptyString.

Definition quote (s : string) : string := dquote ++ quote_body s ++ dquote.

(** [None] stands for the result [undefined].  Inside an array an
    [undefined] element prints as [null]; inside an object a property whose
    value is [undefined] is left out. *)
Fixpoint JSON_stringify (v : value) : option string :=
  match v with
  | JUndefined => None
  | JNull => Some "null"
  | JBool true => Some "true"
  | JBool false => Some "false"
  | JNum n => Some (Number_toString n)
  | JStr s => Some (quote s)
  | JArr xs =>
      Some ("[" ++ String.concat ","
                     (map (fun x => match JSON_stringify x with
                                    | Some t => t
                                    | None => "null"
                                    end) xs) ++ "]")
  | JObj props =>
      Some ("{" ++ String.concat ","
                     (flat_map (fun kv => match JSON_stringify (snd kv) with
                                          | Some t => [quote (fst kv) ++ ":" ++ t]
                                          | None => []
                                          end) props) ++ "}")
  end.

(** An interpolated [${JSON.stringify(v)}]. *)
Definition interp (o : option string) : string :=
  match o with Some t => t | None => "undefined" end.

End JS.
Import JS.

(** ** The world the module runs in *)

Inductive stream : Type := Stdout | Stderr.

(** The arguments of one [fetch] call. *)
Record Request : Type := mkRequest {
  req_url : string;
  req_method : string;
  req_headers : list (string * string);
  req_body : option string   (* [None]: [body: undefined] *)
}.

(** A response as [fetch] resolves it.  [body = None] is a null body. *)
Record Response : Type := mkResponse {
  status : number;
  statusText : string;
  body : option string
}.

Inductive FetchOutcome : Type :=
| Rejected (err : exn)         (* the promise rejects *)
| Resolved (response : Response).

(** [clock] and [network] are the environment's answers, indexed by the
    number of earlier clock readings and [fetch] calls; [ticks], [calls]
    and [console] record what the program has done. *)
Record World : Type := mkWorld {
  clock : nat -> number;
  ticks : nat;
  network : nat -> Request -> FetchOutcome;
  calls : list Request;
  console : list (stream * string)
}.

(** A JavaScript computation: runs in a world, ends with a value or a
    throw.  What it did before a throw stays done. *)
Definition M (A : Type) : Type := World -> Res A * World.

Definition ret {A} (a : A) : M A := fun w => (Ok a, w).

Definition throw {A} (e : exn) : M A := fun w => (Throw e, w).

Definition bind {A B} (c : M A) (k : A -> M B) : M B :=
  fun w =>
    match c w with
    | (Ok a, w') => k a w'
    | (Throw e, w') => (Throw e, w')
    end.

(** [try { c } catch (err) { h err }] *)
Definition try_catch {A} (c : M A) (h : exn -> M A) : M A :=
  fun w =>
    match c w with
    | (Ok a, w') => (Ok a, w')
    | (Throw e, w') => h e w'
    end.

Definition liftR {A} (r : Res A) : M A := fun w => (r, w).

Declare Scope js_scope.
Delimit Scope js_scope with js.
Notation "x <- c ;; k" := (bind c (fun x => k))
  (at level 61, c at next level, right associativity) : js_scope.
Notation "c ;; k" := (bind c (fun _ => k))
  (at level 61, right associativity) : js_scope.
Local Open Scope js_scope.

(** [Array.prototype.map] with a callback that may throw. *)
Fixpoint mapM {A B} (f : A -> M B) (l : list A) : M (list B) :=
  match l with
  | [] => ret []
  | a :: t => b <- f a ;; bs <- mapM f t ;; ret (b :: bs)
  end.

Definition write (st : stream) (line : string) : M unit :=
  fun w => (Ok tt, mkWorld (clock w) (ticks w) (network w) (calls w)
                           (console w ++ [(st, line)])%list).

Definition console_log : string -> M unit := write Stdout.
Definition console_error : string -> M unit := write Stderr.

(** [Date.now()], and the time value of [new Date()]. *)
Definition Date_now : M number :=
  fun w => (Ok (clock w (ticks w)),
            mkWorld (clock w) (S (ticks w)) (network w) (calls w) (console w)).

(** [await fetch(url, init)]: the call is recorded, the network decides. *)
Definition fetch (req : Request) : M Response :=
  fun w =>
    let w' := mkWorld (clock w) (ticks w) (network w) (calls w ++ [req])%list
                      (console w) in
    match network w (List.length (calls w)) req with
    | Rejected err => (Throw err, w')
    | Resolved r => (Ok r, w')
    end.

(** [response.ok] *)
Definition ok (r : Response) : bool :=
  (200 <=? to_Z (status r))%Z && (to_Z (status r) <=? 299)%Z.

(** ** The libraries the module calls *)

(** [crypto.createHash('sha256').update(m).digest()], the [elliptic] key
    pair, its [sign] (the per-signature secret is derived from key and
    digest, so [sign] is a function of them) and [toDER('hex')];
    [JSON.parse] ([None] when it throws); [Date.prototype.toISOString]. *)
Class Externals : Type := {
  Digest : Type;
  KeyPair : Type;
  Signature : Type;
  sha256 : string -> Digest;
  keyFromPrivate : string -> KeyPair;
  sign : KeyPair -> Digest -> Signature;
  toDER_hex : Signature -> string;
  JSON_parse : string -> option value;
  toISOString : Z -> string
}.

(** The module's constants, read from the environment when it loads. *)
Record Config : Type := mkConfig {
  API_KEY : string;
  API_SECRET : string;
  BASE_URL : string
}.

(** *** The body of a response *)

(** A body is unusable once it has been read; a null body never is. *)
Definition unusable (r : Response) (used : bool) : bool :=
  match body r with Some _ => used | None => false end.

Definition body_text (r : Response) : string :=
  match body r with Some t => t | None => "" end.

Definition body_unusable : exn :=
  TypeError "Body is unusable: Body has already been read".

(** [await response.text()], with the body's state before and after. *)
Definition Response_text (r : Response) (used : bool) : Res string * bool :=
  if unusable r used then (Throw body_unusable, used)
  else (Ok (body_text r), true).

(** [await response.json()]: reads the body, then parses it. *)
Definition Response_json `{Externals} (r : Response) (used : bool)
  : Res value * bool :=
  if unusable r used then (Throw body_unusable, used)
  else match JSON_parse (body_text r) with
       | Some v => (Ok v, true)
       | None => (Throw (SyntaxError "Unexpected token in JSON"), true)
       end.

(** ** The helper module *)

Section Helper.

Context {ext : Externals}.
Variable cfg : Config.

(** Lines 27-35 of [signRequest]: the parameter string.  [params0] is the
    argument as passed; the default [{}] replaces [undefined]. *)
Definition paramsStr_of (params0 : value) : M string :=
  let params := default_arg params0 (JObj []) in
  if truthy params then
    keys0 <- liftR (Object_keys params) ;;
    if (0 <? List.length keys0)%nat then
      keys <- liftR (Object_keys params) ;;
      let sortedKeys := sort keys in
      keyValuePairs <-
        mapM (fun key =>
                p <- liftR (get_prop params key) ;;
                if typeof p =? "object" then
                  p' <- liftR (get_prop params key) ;;
                  ret (key ++ "=" ++ interp (JSON_stringify p'))
                else
                  p' <- liftR (get_prop params key) ;;
                  text <- liftR (ToString p') ;;
                  ret (key ++ "=" ++ text))
             sortedKeys ;;
      ret (String.concat "&" keyValuePairs)
    else ret ""
  else ret "".

(** The text that is hashed and signed (line 37). *)
Definition message_of (method path nonce paramsStr : string) : string :=
  toUpperCase method ++ "|" ++ path ++ "|" ++ nonce ++ "|" ++ paramsStr.

Definition signRequest (method path nonce : string) (params : value)
  : M string :=
  paramsStr <- paramsStr_of params ;;
  let message := message_of method path nonce paramsStr in
  let msgHash := sha256 message in
  let keyPair := keyFromPrivate (API_SECRET cfg) in
  let signature := sign keyPair msgHash in
  ret (toDER_hex signature).

Definition apiRequest (method path : string) (bodyObj0 : value) : M value :=
  let bodyObj := default_arg bodyObj0 JNull in
  now <- Date_now ;;
  let nonce := Number_toString now in
  signature <- signRequest method path nonce (or_else bodyObj (JObj [])) ;;
  let headers :=
    [ ("BIZ-API-KEY", API_KEY cfg);
      ("BIZ-API-NONCE", nonce);
      ("BIZ-API-SIGNATURE", signature);
      ("Content-Type", "application/json");
      ("Accept", "application/json") ] in
  date <- Date_now ;;
  console_log ("[" ++ toISOString (to_Z date) ++ "] Request: " ++ toUpperCase method
               ++ " " ++ BASE_URL cfg ++ path) ;;
  (if truthy bodyObj
   then console_log ("Request Body: " ++ interp (JSON_stringify bodyObj))
   else ret tt) ;;
  response <-
    try_catch
      (fetch (mkRequest (BASE_URL cfg ++ path) (toUpperCase method) headers
                (if truthy bodyObj then JSON_stringify bodyObj else None)))
      (fun err =>
         console_error ("Network error during API call: " ++ emessage err) ;;
         throw err) ;;
  console_log ("Response Status: " ++ Number_toString (status response)
               ++ " " ++ statusText response) ;;
  let '(parsed, used) := Response_json response false in
  result <-
    try_catch (liftR parsed)
      (fun _ =>
         text <- liftR (fst (Response_text response used)) ;;
         console_error ("Invalid JSON response: " ++ text) ;;
         throw (Error ("API returned non-JSON response (status "
                       ++ Number_toString (status response) ++ ")"))) ;;
  if negb (ok response) then
    console_error ("API Error Response: " ++ interp (JSON_stringify result)) ;;
    msg <- liftR (get_prop result "message") ;;
    text <- liftR (ToString (or_else msg (JStr (statusText response)))) ;;
    throw (Error ("API request failed with status "
                  ++ Number_toString (status response) ++ ": " ++ text))
  else
    console_log ("Response Body: " ++ interp (JSON_stringify result)) ;;
    ret result.

Definition createWallet (name : value) : M value :=
  console_log "--- Creating a new wallet ---" ;;
  name_text <- liftR (ToString name) ;;
  console_log ("Wallet Name: " ++ name_text) ;;
  let body := JObj [("name", name); ("wallet_type", JStr "Custodial")] in
  result <- apiRequest "POST" "/v2/wallets" body ;;
  wallet_id <- liftR (get_prop result "wallet_id") ;;
  id_text <- liftR (ToString wallet_id) ;;
  console_log ("Wallet created successfully. ID: " ++ id_text) ;;
  ret result.

Definition getDepositAddress (walletId : value) : M value :=
  console_log "--- Retrieving ETH deposit address ---" ;;
  id_text <- liftR (ToString walletId) ;;
  console_log ("Wallet ID: " ++ id_text) ;;
  let body := JObj [("chain_id", JStr "ETH")] in
  id_text' <- liftR (ToString walletId) ;;
  result <- apiRequest "POST" ("/v2/wallets/" ++ id_text' ++ "/addresses")
              body ;;
  addressInfo <- (if isArray result then liftR (get_prop result "0")
                  else ret result) ;;
  address <- liftR (get_prop addressInfo "address") ;;
  let depositAddress := or_else address (JStr "") in
  address_text <- liftR (ToString depositAddress) ;;
  console_log ("Ethereum deposit address: " ++ address_text) ;;
  ret depositAddress.

Definition withdrawETH (walletId toAddress amount : value) : M value :=
  console_log "--- Withdrawing ETH to external address ---" ;;
  id_text <- liftR (ToString walletId) ;;
  console_log ("Wallet ID: " ++ id_text) ;;
  to_text <- liftR (ToString toAddress) ;;
  console_log ("Destination (external) address: " ++ to_text) ;;
  amount_text <- liftR (ToString amount) ;;
  console_log ("Amount: " ++ amount_text ++ " ETH") ;;
  let body := JObj [ ("source_wallet_id", walletId);
                     ("token_id", JStr "ETH");
                     ("to_address", toAddress);
                     ("amount", amount) ] in
  result <- apiRequest "POST" "/v2/transactions/transfer" body ;;
  console_log ("Withdrawal request submitted. Response: "
               ++ interp (JSON_stringify result)) ;;
  ret result.

End Helper.

(** *** Loading the module (lines 1-16 and 163) *)

(** [process.env], after [dotenv] has filled it in. *)
Definition Env : Type := string -> option string.

Definition missing_credentials : exn :=
  Error "Missing API key or secret. Please set COBO_API_KEY and COBO_API_SECRET in .env".

(** [!x] for an environment entry: unset, or set to the empty string. *)
Definition unset (x : option string) : bool :=
  match x with
  | Some s => s =? ""
  | None => true
  end.

Definition load_config (env : Env) : Res Config :=
  let api_key := env "COBO_API_KEY" in
  let api_secret := env "COBO_API_SECRET" in
  let base_url :=
    match env "COBO_BASE_URL" with
    | Some u => if u =? "" then "https://api.cobo.com" else u
    | None => "https://api.cobo.com"
    end in
  if unset api_key || unset api_secret then Throw missing_credentials
  else match api_key, api_secret with
       | Some k, Some s => Ok (mkConfig k s base_url)
       | _, _ => Throw missing_credentials
       end.

(** [module.exports] *)
Record Exports : Type := mkExports {
  exp_signRequest : string -> string -> string -> value -> M string;
  exp_apiRequest : string -> string -> value -> M value;
  exp_createWallet : value -> M value;
  exp_getDepositAddress : value -> M value;
  exp_withdrawETH : value -> value -> value -> M value
}.

(** [require('./lib/helper')]: the exports, or the throw of the top-level
    code. *)
Definition helper_module `{Externals} (env : Env) : Res Exports :=
  match load_config env with
  | Ok cfg => Ok (mkExports (signRequest cfg) (apiRequest cfg)
                            (createWallet cfg) (getDepositAddress cfg)
                            (withdrawETH cfg))
  | Throw e => Throw e
  end.

(** ** The example script ([src/index.js]) *)

(** How a run of the script ends: [main] returns, or [process.exit(code)]
    stops the process. *)
Inductive ending : Type :=
| Returned
| Exited (code : Z).

Definition nl : string := String (ascii_of_nat 10) EmptyString.

(** The exports of the helper loaded with the constants [cfg]. *)
Definition helper_exports `{Externals} (cfg : Config) : Exports :=
  mkExports (signRequest cfg) (apiRequest cfg) (createWallet cfg)
            (getDepositAddress cfg) (withdrawETH cfg).

(** [main] (lines 13-57), over the functions it imports.  Example 4 is
    commented out in the source.  [console.error(a, b)] prints its
    arguments separated by a space. *)
Definition main (helper : Exports) : M ending :=
  try_catch
    (console_log (nl ++ "=== Example 0: Using signRequest directly ===") ;;
     let method := "GET" in
     let path := "/v2/wallets" in
     now <- Date_now ;;
     let nonce := Number_toString now in
     let params := JObj [("limit", JNum (num 10)); ("offset", JNum (num 0))] in
     signature <- exp_signRequest helper method path nonce params ;;
     console_log ("Generated signature: " ++ signature) ;;
     console_log "This signature can be used in the 'BIZ-API-SIGNATURE' header for API requests" ;;
     console_log (nl ++ "=== Example 1: Creating a new wallet ===") ;;
     now' <- Date_now ;;
     let walletName := JStr ("Test Wallet " ++ Number_toString now') in
     wallet <- exp_createWallet helper walletName ;;
     wallet_id <- liftR (get_prop wallet "wallet_id") ;;
     id_text <- liftR (ToString wallet_id) ;;
     console_log ("Wallet created with ID: " ++ id_text) ;;
     console_log (nl ++ "=== Example 2: Getting a deposit address ===") ;;
     wallet_id' <- liftR (get_prop wallet "wallet_id") ;;
     depositAddress <- exp_getDepositAddress helper wallet_id' ;;
     address_text <- liftR (ToString depositAddress) ;;
     console_log ("Deposit address: " ++ address_text) ;;
     console_log (nl ++ "=== Example 3: Using apiRequest directly ===") ;;
     console_log "Fetching list of wallets using apiRequest..." ;;
     walletList <- exp_apiRequest helper "GET" "/v2/wallets"
                     (JObj [("limit", JNum (num 10)); ("offset", JNum (num 0))]) ;;
     len <- liftR (get_prop walletList "length") ;;
     count_text <- liftR (ToString (or_else len (JNum (num 0)))) ;;
     console_log ("Retrieved " ++ count_text ++ " wallets") ;;
     console_log (nl ++ "All operations completed successfully!") ;;
     ret Returned)
    (fun error =>
       console_error ("Error occurred: " ++ emessage error) ;;
       ret (Exited 1)).

(** The script: [require] the helper (line 10), then [main().catch(...)]
    (lines 60-63).  A throw of [require] is an uncaught error.  [inspect]
    is how [console.error] prints an error object. *)
Definition index_js `{Externals} (inspect : exn -> string) (env : Env)
  : M ending :=
  match helper_module env with
  | Ok helper =>
      try_catch (main helper)
        (fun err =>
           console_error ("Unhandled error: " ++ inspect err) ;;
           ret (Exited 1))
  | Throw e => throw e
  end.

(** What [apiRequest] makes of a resolved response (lines 82-100). *)
Definition response_result `{Externals} (r : Response) : Res value :=
  match JSON_parse (body_text r) with
  | None =>
      match body r with
      | Some _ => Throw body_unusable
      | None => Throw (Error ("API returned non-JSON response (status "
                              ++ Number_toString (status r) ++ ")"))
      end
  | Some result =>
      if ok r then Ok result
      else match get_prop result "message" with
           | Ok msg =>
               match ToString (or_else msg (JStr (statusText r))) with
               | Ok text =>
                   Throw (Error ("API request failed with status "
                                 ++ Number_toString (status r) ++ ": " ++ text))
               | Throw e => Throw e
               end
           | Throw e => Throw e
           end
  end.

Definition outcome_result `{Externals} (o : FetchOutcome) : Res value :=
  match o with
  | Rejected err => Throw err
  | Resolved r => response_result r
  end.

(** ** The specification's vocabulary *)

Module Spec.

(** Ascending order of keys. *)
Definition key_le (a b : string) : Prop := (a <=? b) = true.

(** The value of property [k] of an object. *)
Definition value_at (props : list (string * value)) (k : string) : value :=
  match assoc k props with
  | Some x => x
  | None => JUndefined
  end.

(** How a parameter value is written: objects (with arrays and [null])
    as JSON text, anything else as its string. *)
Definition value_text (x : value) : string :=
  match x with
  | JNull | JArr _ | JObj _ => interp (JSON_stringify x)
  | JUndefined => "undefined"
  | JBool true => "true"
  | JBool false => "false"
  | JNum n => Number_toString n
  | JStr s => s
  end.

(** One [key=value] pair. *)
Definition pair_text (props : list (string * value)) (k : string) : string :=
  k ++ "=" ++ value_text (value_at props k).

(** The canonical parameter string of any argument: the pairs of its own
    properties, by sorted key. *)
Definition canonical (params0 : value) : string :=
  let props := own_props (default_arg params0 (JObj [])) in
  String.concat "&" (map (pair_text props) (sort (map fst props))).

(** [METHOD|PATH|NONCE|PARAMS] *)
Definition signed_message (method path nonce : string) (params : value)
  : string :=
  toUpperCase method ++ "|" ++ path ++ "|" ++ nonce ++ "|" ++ canonical params.

(** The DER signature, in hex, of the SHA-256 hash of a message under the
    configured secret. *)
Definition signature_of `{Externals} (cfg : Config) (message : string)
  : string :=
  toDER_hex (sign (keyFromPrivate (API_SECRET cfg)) (sha256 message)).

(** The nonce an [apiRequest] started in world [w] draws from the clock. *)
Definition nonce_at (w : World) : string :=
  Number_toString (clock w (ticks w)).

(** The body object after the default [null]. *)
Definition body_of (bodyObj : value) : value := default_arg bodyObj JNull.

(** The request an [apiRequest] started in world [w] hands to [fetch]. *)
Definition request_of `{Externals} (cfg : Config) (method path : string)
    (bodyObj : value) (w : World) : Request :=
  mkRequest (BASE_URL cfg ++ path) (toUpperCase method)
    [ ("BIZ-API-KEY", API_KEY cfg);
      ("BIZ-API-NONCE", nonce_at w);
      ("BIZ-API-SIGNATURE",
       signature_of cfg
         (signed_message method path (nonce_at w)
            (or_else (body_of bodyObj) (JObj []))));
      ("Content-Type", "application/json");
      ("Accept", "application/json") ]
    (if truthy (body_of bodyObj) then JSON_stringify (body_of bodyObj)
     else None).

(** The network's answer to it. *)
Definition outcome_of `{Externals} (cfg : Config) (method path : string)
    (bodyObj : value) (w : World) : FetchOutcome :=
  network w (List.length (calls w)) (request_of cfg method path bodyObj w).

Definition is_2xx (r : Response) : Prop :=
  (200 <= to_Z (status r) <= 299)%Z.

(** The world after the given lines have been logged. *)
Definition logged (w : World) (lines : list string) : World :=
  fold_left (fun w' line => snd (console_log line w')) lines w.

(** [v.address || ''] *)
Definition address_or_empty (v : value) : value :=
  if truthy (prop_of v "address") then prop_of v "address" else JStr "".

(** The request body each convenience function builds, and the world in
    which its [apiRequest] starts: the one after its opening log lines,
    which print the arguments ([name_text] is the string of [name], and so
    on). *)
Definition createWallet_body (name : value) : value :=
  JObj [("name", name); ("wallet_type", JStr "Custodial")].

Definition createWallet_start (name_text : string) (w : World) : World :=
  logged w ["--- Creating a new wallet ---"; "Wallet Name: " ++ name_text].

Definition getDepositAddress_path (id_text : string) : string :=
  "/v2/wallets/" ++ id_text ++ "/addresses".

Definition getDepositAddress_body : value := JObj [("chain_id", JStr "ETH")].

Definition getDepositAddress_start (id_text : string) (w : World) : World :=
  logged w ["--- Retrieving ETH deposit address ---";
            "Wallet ID: " ++ id_text].

Definition withdrawETH_body (walletId toAddress amount : value) : value :=
  JObj [ ("source_wallet_id", walletId); ("token_id", JStr "ETH");
         ("to_address", toAddress); ("amount", amount) ].

Definition withdrawETH_start (id_text to_text amount_text : string)
    (w : World) : World :=
  logged w ["--- Withdrawing ETH to external address ---";
            "Wallet ID: " ++ id_text;
            "Destination (external) address: " ++ to_text;
            "Amount: " ++ amount_text ++ " ETH"].

End Spec.
Import Spec.

(** ** A stand-in for the libraries *)

(** Symbolic hashing and signing, and [JSON.parse] on the few texts the
    examples use, to run the module on concrete inputs. *)
Module Demo.

Definition known : list value :=
  [ JNull; JObj []; JArr [];
    JObj [("wallet_id", JStr "w-1")];
    JArr [JObj [("address", JStr "0xabc")]];
    JArr [JNull];
    JObj [("address", JNum (num 0))];
    JObj [("wallet_id", JObj [("toString", JNum (num 0))])];
    JObj [("address", JObj [("toString", JNum (num 0))])];
    JObj [("message", JStr "denied")];
    JObj [("message", JObj [("toString", JNull)])] ].

(** The known value whose JSON text is [text]. *)
Definition parse (text : string) : option value :=
  find (fun v => interp (JSON_stringify v) =? text) known.

#[local] Instance externals : Externals := {|
  Digest := string;
  KeyPair := string;
  Signature := string;
  sha256 := fun m => "sha256(" ++ m ++ ")";
  keyFromPrivate := fun secret => "key(" ++ secret ++ ")";
  sign := fun k d => "sign(" ++ k ++ "," ++ d ++ ")";
  toDER_hex := fun sg => "der(" ++ sg ++ ")";
  JSON_parse := parse;
  toISOString := fun t => "T" ++ decimal t
|}.

Definition config : Config := mkConfig "key-1" "c0ffee" "https://api.cobo.com".

(** A world whose clock starts at [1700000000000] and whose network gives
    every request the same answer. *)
Definition world (answer : FetchOutcome) : World :=
  mkWorld (fun i => num (1700000000000 + Z.of_nat i)) 0 (fun _ _ => answer)
          [] [].

(** The answer with status [st] whose body is the JSON text of [v]. *)
Definition replies (st : Z) (text : string) (v : value) : FetchOutcome :=
  Resolved (mkResponse (num st) text (Some (interp (JSON_stringify v)))).

Definition wallet : value := JObj [("wallet_id", JStr "w-1")].

Definition addresses : value := JArr [JObj [("address", JStr "0xabc")]].

Definition fetch_failed : exn := TypeError "fetch failed".

Definition env_full : Env :=
  fun name =>
    if name =? "COBO_API_KEY" then Some "key-1"
    else if name =? "COBO_API_SECRET" then Some "c0ffee"
    else None.

Definition env_no_secret : Env :=
  fun name => if name =? "COBO_API_KEY" then Some "key-1" else None.

End Demo.

(** ** Sorting *)

Lemma leb_trans (a b c : string) :
  key_le a b -> key_le b c -> key_le a c.
Proof.
  unfold key_le, String.leb. revert b c.
  induction a as [|x a IH]; intros [|y b] [|z c]; simpl; try congruence.
  unfold Ascii.compare.
  destruct (N.compare_spec (N_of_ascii x) (N_of_ascii y));
    destruct (N.compare_spec (N_of_ascii y) (N_of_ascii z));
    destruct (N.compare_spec (N_of_ascii x) (N_of_ascii z));
    try congruence; try lia; auto.
  apply IH.
Qed.

Lemma insert_sorted_perm (k : string) (l : list string) :
  Permutation (insert_sorted k l) (k :: l).
Proof.
  induction l as [|h t IH]; simpl; [reflexivity|].
  destruct (k <=? h); [reflexivity|].
  rewrite IH. apply perm_swap.
Qed.

Lemma sort_perm (l : list string) : Permutation (sort l) l.
Proof.
  induction l as [|h t IH]; simpl; [constructor|].
  rewrite insert_sorted_perm. now constructor.
Qed.

Lemma insert_sorted_strongly (k : string) (l : list string) :
  StronglySorted key_le l -> StronglySorted key_le (insert_sorted k l).
Proof.
  induction 1 as [|h t Ht IH Hall]; simpl.
  - repeat constructor.
  - destruct (k <=? h) eqn:E.
    + constructor; [now constructor|].
      constructor; [exact E|].
      eapply Forall_impl; [|exact Hall].
      intros c Hc. eapply leb_trans; eauto.
    + constructor; [exact IH|].
      assert (Hk : key_le h k).
      { destruct (String.leb_total k h) as [H|H]; [congruence|exact H]. }
      eapply Permutation_Forall.
      * symmetry. apply insert_sorted_perm.
      * now constructor.
Qed.

Lemma sort_strongly_sorted (l : list string) : StronglySorted key_le (sort l).
Proof.
  induction l; simpl; [constructor | now apply insert_sorted_strongly].
Qed.

(** ** Running computations *)

Lemma mapM_pure {A B} (f : A -> M B) (g : A -> B) (l : list A) :
  (forall a, In a l -> forall w, f a w = (Ok (g a), w)) ->
  forall w, mapM f l w = (Ok (map g l), w).
Proof.
  induction l as [|a t IH]; intros Hf w; simpl; [reflexivity|].
  unfold bind. rewrite (Hf a (or_introl eq_refl)).
  rewrite IH; [reflexivity|].
  intros b Hb. apply Hf. now right.
Qed.

Lemma truthy_not_nullish (v : value) : truthy v = true -> nullish v = false.
Proof. destruct v; simpl; congruence. Qed.

Lemma falsy_no_props (v : value) : truthy v = false -> own_props v = [].
Proof.
  destruct v as [| |b|n|s|xs|ps]; simpl; try congruence.
  destruct s; simpl; [reflexivity | discriminate].
Qed.

Lemma assoc_in_keys (k : string) (props : list (string * value)) :
  In k (map fst props) -> exists x, assoc k props = Some x.
Proof.
  induction props as [|[k' v'] t IH]; simpl; [tauto|].
  intros [E|H].
  - subst. rewrite String.eqb_refl. eauto.
  - destruct (k' =? k); eauto.
Qed.

Lemma prop_of_own (v : value) (k : string) :
  In k (map fst (own_props v)) -> prop_of v k = value_at (own_props v) k.
Proof.
  intros H. destruct (assoc_in_keys _ _ H) as [x Hx].
  unfold prop_of, value_at. now rewrite Hx.
Qed.

Lemma object_text (x : value) :
  (typeof x =? "object") = true -> value_text x = interp (JSON_stringify x).
Proof. destruct x; simpl; try discriminate; reflexivity. Qed.

(** A value that is not an object always converts to a string. *)
Lemma primitive_text (x : value) :
  (typeof x =? "object") = false -> ToString x = Ok (value_text x).
Proof. destruct x as [| |[]| | | |]; simpl; try discriminate; reflexivity. Qed.

(** The parameter string is computed without a throw and without touching
    the world, and it is the canonical string. *)
Lemma paramsStr_of_canonical (params : value) (w : World) :
  paramsStr_of params w = (Ok (canonical params), w).
Proof.
  unfold paramsStr_of, canonical.
  set (p := default_arg params (JObj [])).
  destruct (truthy p) eqn:T.
  - unfold bind, liftR, Object_keys.
    rewrite (truthy_not_nullish _ T).
    destruct (0 <? List.length (map fst (own_props p)))%nat eqn:L.
    + rewrite (mapM_pure _ (pair_text (own_props p))); [reflexivity|].
      intros k Hk w'.
      assert (Hin : In k (map fst (own_props p))).
      { eapply Permutation_in; [apply sort_perm | exact Hk]. }
      unfold bind, liftR, ret, get_prop. rewrite (truthy_not_nullish _ T).
      unfold pair_text. rewrite <- (prop_of_own _ _ Hin).
      destruct (typeof (prop_of p k) =? "object") eqn:Ty.
      * now rewrite (object_text _ Ty).
      * now rewrite (primitive_text _ Ty).
    + apply Nat.ltb_ge in L.
      destruct (map fst (own_props p)); simpl in L; [reflexivity | lia].
  - rewrite (falsy_no_props _ T). reflexivity.
Qed.

Lemma signRequest_run `{Externals} (cfg : Config) (method path nonce : string)
      (params : value) (w : World) :
  signRequest cfg method path nonce params w
  = (Ok (signature_of cfg (signed_message method path nonce params)), w).
Proof.
  unfold signRequest, bind. rewrite paramsStr_of_canonical. reflexivity.
Qed.

(** ** What one [apiRequest] does *)

Lemma ok_is_2xx (r : Response) : ok r = true <-> is_2xx r.
Proof. unfold ok, is_2xx. lia. Qed.

(** Two numbers with the same integer are the same number. *)
Lemma number_eq (a b : number) : to_Z a = to_Z b -> a = b.
Proof.
  destruct a as [x Hx], b as [y Hy]. simpl. intros ->.
  f_equal. apply Eqdep_dec.UIP_dec. apply Bool.bool_dec.
Qed.

Lemma apiRequest_run `{Externals} (cfg : Config) (method path : string)
      (bodyObj : value) (w : World) :
  exists res w',
    apiRequest cfg method path bodyObj w = (res, w') /\
    calls w' = (calls w ++ [request_of cfg method path bodyObj w])%list /\
    match outcome_of cfg method path bodyObj w with
    | Rejected err => res = Throw err
    | Resolved r =>
        match JSON_parse (body_text r) with
        | None => exists e, res = Throw e
        | Some v => if ok r then res = Ok v else exists e, res = Throw e
        end
    end.
Proof.
  unfold apiRequest, outcome_of, request_of, nonce_at, body_of.
  set (b := default_arg bodyObj JNull).
  cbv [bind Date_now console_log console_error write try_catch fetch ret
       throw liftR].
  cbn [clock ticks network calls console].
  rewrite signRequest_run.
  cbn [clock ticks network calls console].
  destruct (truthy b) eqn:T; cbn [clock ticks network calls console];
    (match goal with
     | |- context [network w ?n ?req] =>
         destruct (network w n req) as [err|r]
     end;
     [ do 2 eexists; split; [reflexivity|]; split; reflexivity | ]);
    unfold Response_json, Response_text, unusable, body_text;
    destruct (body r) as [t|]; cbn [fst snd];
    (destruct (JSON_parse _) as [v|];
     [ destruct (ok r); cbn [negb];
       [ | destruct (get_prop v "message") as [msg|];
           [ destruct (ToString (or_else msg (JStr (statusText r)))) | ] ]
     | ]);
    do 2 eexists; (split; [reflexivity|]); cbn [calls]; split;
    solve [reflexivity | eauto].
Qed.

Lemma logged_calls (w : World) (lines : list string) :
  calls (logged w lines) = calls w.
Proof.
  unfold logged. revert w.
  induction lines as [|l t IH]; intros w; simpl; [reflexivity|].
  now rewrite IH.
Qed.

Lemma apiRequest_calls `{Externals} (cfg : Config) (method path : string)
      (bodyObj : value) (w : World) :
  calls (snd (apiRequest cfg method path bodyObj w))
  = (calls w ++ [request_of cfg method path bodyObj w])%list.
Proof.
  destruct (apiRequest_run cfg method path bodyObj w) as (res & w' & E & C & _).
  now rewrite E.
Qed.

(** ** The three convenience functions, in terms of their [apiRequest] *)

Section Convenience.

Context {ext : Externals}.
Variable cfg : Config.

Lemma createWallet_run (name : value) (w : World) :
  createWallet cfg name w =
  match ToString name with
  | Ok name_text =>
      match apiRequest cfg "POST" "/v2/wallets" (createWallet_body name)
              (createWallet_start name_text w) with
      | (Ok result, w1) =>
          match get_prop result "wallet_id" with
          | Ok wallet_id =>
              match ToString wallet_id with
              | Ok id_text =>
                  (Ok result,
                   logged w1 ["Wallet created successfully. ID: " ++ id_text])
              | Throw e => (Throw e, w1)
              end
          | Throw e => (Throw e, w1)
          end
      | (Throw e, w1) => (Throw e, w1)
      end
  | Throw e => (Throw e, logged w ["--- Creating a new wallet ---"])
  end.
Proof.
  unfold createWallet, createWallet_start, createWallet_body, logged, bind,
    liftR.
  cbn [fold_left console_log write snd].
  destruct (ToString name) as [name_text|]; [|reflexivity].
  destruct (apiRequest _ _ _ _ _) as [[result|e] w1]; [|reflexivity].
  destruct (get_prop result "wallet_id") as [wallet_id|]; [|reflexivity].
  destruct (ToString wallet_id); reflexivity.
Qed.

Lemma getDepositAddress_run (walletId : value) (w : World) :
  getDepositAddress cfg walletId w =
  match ToString walletId with
  | Ok id_text =>
      match apiRequest cfg "POST" (getDepositAddress_path id_text)
              getDepositAddress_body (getDepositAddress_start id_text w) with
      | (Ok result, w1) =>
          match (if isArray result then get_prop result "0" else Ok result) with
          | Ok addressInfo =>
              match get_prop addressInfo "address" with
              | Ok address =>
                  match ToString (or_else address (JStr "")) with
                  | Ok address_text =>
                      (Ok (or_else address (JStr "")),
                       logged w1 ["Ethereum deposit address: " ++ address_text])
                  | Throw e => (Throw e, w1)
                  end
              | Throw e => (Throw e, w1)
              end
          | Throw e => (Throw e, w1)
          end
      | (Throw e, w1) => (Throw e, w1)
      end
  | Throw e => (Throw e, logged w ["--- Retrieving ETH deposit address ---"])
  end.
Proof.
  unfold getDepositAddress, getDepositAddress_start, getDepositAddress_body,
    getDepositAddress_path, logged, bind, liftR.
  cbn [fold_left console_log write snd].
  destruct (ToString walletId) as [id_text|]; [|reflexivity].
  destruct (apiRequest _ _ _ _ _) as [[result|e] w1]; [|reflexivity].
  unfold ret.
  destruct (isArray result);
    [destruct (get_prop result "0") as [addressInfo|]; [|reflexivity]|];
    (match goal with
     | |- context [get_prop ?a "address"] =>
         destruct (get_prop a "address") as [address|]; [|reflexivity]
     end;
     destruct (ToString (or_else address (JStr ""))); reflexivity).
Qed.

Lemma withdrawETH_run (walletId toAddress amount : value) (w : World) :
  withdrawETH cfg walletId toAddress amount w =
  match ToString walletId with
  | Ok id_text =>
      match ToString toAddress with
      | Ok to_text =>
          match ToString amount with
          | Ok amount_text =>
              match apiRequest cfg "POST" "/v2/transactions/transfer"
                      (withdrawETH_body walletId toAddress amount)
                      (withdrawETH_start id_text to_text amount_text w) with
              | (Ok result, w1) =>
                  (Ok result,
                   logged w1 ["Withdrawal request submitted. Response: "
                              ++ interp (JSON_stringify result)])
              | (Throw e, w1) => (Throw e, w1)
              end
          | Throw e =>
              (Throw e,
               logged w ["--- Withdrawing ETH to external address ---";
                         "Wallet ID: " ++ id_text;
                         "Destination (external) address: " ++ to_text])
          end
      | Throw e =>
          (Throw e,
           logged w ["--- Withdrawing ETH to external address ---";
                     "Wallet ID: " ++ id_text])
      end
  | Throw e =>
      (Throw e, logged w ["--- Withdrawing ETH to external address ---"])
  end.
Proof.
  unfold withdrawETH, withdrawETH_start, withdrawETH_body, logged, bind, liftR.
  cbn [fold_left console_log write snd].
  destruct (ToString walletId) as [id_text|]; [|reflexivity].
  destruct (ToString toAddress) as [to_text|]; [|reflexivity].
  destruct (ToString amount) as [amount_text|]; [|reflexivity].
  destruct (apiRequest _ _ _ _ _) as [[result|e] w1]; reflexivity.
Qed.

End Convenience.

(** ** The request-signing routine *)

(** C1. For every method, path, nonce and params, [signRequest] returns the
    hex-encoded DER signature, under the configured secret, of the SHA-256
    hash of the message [METHOD|PATH|NONCE|PARAMS], where METHOD is the
    method in upper case and PARAMS is the canonical parameter string. *)
Theorem signRequest_signs_message `{Externals} (cfg : Config)
    (method path nonce : string) (params : value) (w : World) :
  signRequest cfg method path nonce params w
  = (Ok (toDER_hex
           (sign (keyFromPrivate (API_SECRET cfg))
              (sha256 (toUpperCase method ++ "|" ++ path ++ "|" ++ nonce
                       ++ "|" ++ canonical params)))),
     w).
Proof. apply signRequest_run. Qed.

(** C2. The parameter string of a params object is one [key=value] pair
    per key, the keys in ascending order, joined by [&]; a value that is
    an object is written as its JSON text; for the empty object, and for
    an absent ([undefined]) or [null] argument, the string is empty. *)
Theorem paramsStr_sorted_pairs (props : list (string * value)) (w : World) :
  (exists keys : list string,
      Permutation keys (map fst props) /\
      StronglySorted key_le keys /\
      paramsStr_of (JObj props) w
      = (Ok (String.concat "&"
               (map (fun k => k ++ "=" ++ value_text (value_at props k)) keys)),
         w)) /\
  (forall x : value, typeof x = "object" ->
                     value_text x = interp (JSON_stringify x)) /\
  paramsStr_of (JObj []) w = (Ok "", w) /\
  paramsStr_of JUndefined w = (Ok "", w) /\
  paramsStr_of JNull w = (Ok "", w).
Proof.
  split; [|split; [|repeat split; apply paramsStr_of_canonical]].
  - exists (sort (map fst props)).
    split; [apply sort_perm|].
    split; [apply sort_strongly_sorted|].
    apply paramsStr_of_canonical.
  - intros x Hx. destruct x; simpl in Hx; try discriminate; reflexivity.
Qed.

(** C4. [signRequest] is deterministic and stateless: with the same
    method, path, nonce and params it returns the same signature in any
    two worlds, and it leaves the world as it found it. *)
Theorem signRequest_deterministic `{Externals} (cfg : Config)
    (method path nonce : string) (params : value) (w1 w2 : World) :
  fst (signRequest cfg method path nonce params w1)
  = fst (signRequest cfg method path nonce params w2) /\
  snd (signRequest cfg method path nonce params w1) = w1 /\
  snd (signRequest cfg method path nonce params w2) = w2.
Proof. rewrite !signRequest_run. repeat split. Qed.

(** C8. [signRequest] gives the same signature for params [null],
    [undefined] and [{}]; so [apiRequest] with body [null] sends the same
    signed headers, over the same message, as with body [{}], while the
    request with [null] carries no body and the one with [{}] carries the
    text of the empty object. *)
Theorem null_and_empty_params_sign_alike `{Externals} (cfg : Config)
    (method path nonce : string) (w : World) :
  signRequest cfg method path nonce JNull w
  = signRequest cfg method path nonce (JObj []) w /\
  signRequest cfg method path nonce JUndefined w
  = signRequest cfg method path nonce (JObj []) w /\
  exists (reqNull reqEmpty : Request) (message : string),
    calls (snd (apiRequest cfg method path JNull w))
    = (calls w ++ [reqNull])%list /\
    calls (snd (apiRequest cfg method path (JObj []) w))
    = (calls w ++ [reqEmpty])%list /\
    message = toUpperCase method ++ "|" ++ path ++ "|" ++ nonce_at w ++ "|" /\
    In ("BIZ-API-SIGNATURE", signature_of cfg message) (req_headers reqNull) /\
    req_headers reqNull = req_headers reqEmpty /\
    req_body reqNull = None /\
    req_body reqEmpty = Some "{}".
Proof.
  rewrite !signRequest_run.
  split; [reflexivity|]. split; [reflexivity|].
  exists (request_of cfg method path JNull w),
         (request_of cfg method path (JObj []) w).
  eexists. rewrite !apiRequest_calls.
  repeat split. simpl. tauto.
Qed.

(** ** The request wrapper *)

(** Closes the cases of a statement about the outcome of a [fetch]. *)
Ltac settle_outcome :=
  repeat split; intros;
  repeat match goal with
         | H : exists _, _ |- _ => destruct H
         | H : _ /\ _ |- _ => destruct H
         | H : Resolved _ = Resolved _ |- _ => inversion H; subst; clear H
         | H : Ok _ = Ok _ |- _ => inversion H; subst; clear H
         end;
  try discriminate; try congruence; try contradiction; eauto.

(** C3. One [apiRequest] calls [fetch] once (no retry).  It throws when
    [fetch] rejects, when the body of the response is not JSON, and when
    the status is not 2xx; it returns a value, the parsed body, exactly
    when none of the three happens. *)
Theorem apiRequest_failures `{Externals} (cfg : Config) (method path : string)
    (bodyObj : value) (w : World) :
  let run := apiRequest cfg method path bodyObj w in
  let outcome := outcome_of cfg method path bodyObj w in
  List.length (calls (snd run)) = S (List.length (calls w)) /\
  (forall err, outcome = Rejected err -> fst run = Throw err) /\
  (forall r, outcome = Resolved r -> JSON_parse (body_text r) = None ->
             exists e, fst run = Throw e) /\
  (forall r, outcome = Resolved r -> ~ is_2xx r ->
             exists e, fst run = Throw e) /\
  (forall v, fst run = Ok v <->
             exists r, outcome = Resolved r /\ is_2xx r /\
                       JSON_parse (body_text r) = Some v).
Proof.
  intros run outcome. subst run outcome.
  destruct (apiRequest_run cfg method path bodyObj w) as (res & w' & E & C & O).
  rewrite E. cbn [fst snd]. rewrite C, length_app. cbn [List.length].
  split; [lia|].
  destruct (outcome_of cfg method path bodyObj w) as [err|r].
  - subst res. settle_outcome.
  - destruct (JSON_parse (body_text r)) as [v|] eqn:P.
    + destruct (ok r) eqn:K.
      * subst res. apply ok_is_2xx in K. settle_outcome.
      * destruct O as [e ->].
        assert (N : ~ is_2xx r) by (rewrite <- ok_is_2xx; congruence).
        settle_outcome.
    + destruct O as [e ->]. settle_outcome.
Qed.

(** C5. The request of an [apiRequest] carries exactly the headers
    BIZ-API-KEY (the configured key), BIZ-API-NONCE (the clock reading
    [Date.now()] as a string), BIZ-API-SIGNATURE, Content-Type and Accept;
    the signature is over the message whose NONCE component is the very
    nonce in the header. *)
Theorem apiRequest_headers `{Externals} (cfg : Config) (method path : string)
    (bodyObj : value) (w : World) :
  exists (req : Request) (now : number) (params : value),
    calls (snd (apiRequest cfg method path bodyObj w))
    = (calls w ++ [req])%list /\
    fst (Date_now w) = Ok now /\
    params = or_else (default_arg bodyObj JNull) (JObj []) /\
    req_headers req
    = [ ("BIZ-API-KEY", API_KEY cfg);
        ("BIZ-API-NONCE", Number_toString now);
        ("BIZ-API-SIGNATURE",
         signature_of cfg
           (toUpperCase method ++ "|" ++ path ++ "|" ++ Number_toString now
            ++ "|" ++ canonical params));
        ("Content-Type", "application/json");
        ("Accept", "application/json") ] /\
    fst (signRequest cfg method path (Number_toString now) params w)
    = Ok (signature_of cfg
            (toUpperCase method ++ "|" ++ path ++ "|" ++ Number_toString now
             ++ "|" ++ canonical params)).
Proof.
  exists (request_of cfg method path bodyObj w), (clock w (ticks w)).
  eexists. rewrite apiRequest_calls, signRequest_run.
  repeat split.
Qed.

(** ** The convenience functions *)

(** C6 (as the code has it). For a [name] that converts to a string,
    [createWallet name] calls [fetch] once, through one [apiRequest] with
    method POST, path [/v2/wallets] and body
    [{name: name, wallet_type: 'Custodial'}], and returns what that call
    returns whenever that is not [null] (nor [undefined]) and its
    [wallet_id] converts to a string for the log line. *)
Theorem createWallet_returns_result `{Externals} (cfg : Config) (name : value)
    (name_text : string) (w : World) :
  ToString name = Ok name_text ->
  let body := JObj [("name", name); ("wallet_type", JStr "Custodial")] in
  let start := createWallet_start name_text w in
  (exists req : Request,
      calls (snd (createWallet cfg name w)) = (calls w ++ [req])%list /\
      req = request_of cfg "POST" "/v2/wallets" body start /\
      req_method req = "POST" /\
      req_url req = BASE_URL cfg ++ "/v2/wallets" /\
      req_body req = JSON_stringify body) /\
  (forall (result : value) (w1 : World) (id_text : string),
      apiRequest cfg "POST" "/v2/wallets" body start = (Ok result, w1) ->
      nullish result = false ->
      ToString (prop_of result "wallet_id") = Ok id_text ->
      fst (createWallet cfg name w) = Ok result).
Proof.
  intros P body start. split.
  - eexists. split; [|repeat split].
    rewrite createWallet_run, P.
    change (createWallet_body name) with body. fold start.
    pose proof (apiRequest_calls cfg "POST" "/v2/wallets" body start) as C.
    unfold start at 2 in C. unfold createWallet_start in C.
    rewrite logged_calls in C.
    destruct (apiRequest cfg "POST" "/v2/wallets" body start)
      as [[result|e] w1]; cbn [snd] in C |- *; [|exact C].
    destruct (get_prop result "wallet_id") as [wallet_id|]; cbn [snd];
      [|exact C].
    destruct (ToString wallet_id); cbn [snd];
      [rewrite logged_calls|]; exact C.
  - intros result w1 id_text E N I.
    rewrite createWallet_run, P.
    change (createWallet_body name) with body. fold start. rewrite E.
    unfold get_prop. rewrite N, I. reflexivity.
Qed.

(** C7. When its [apiRequest] throws, each of [createWallet],
    [getDepositAddress] and [withdrawETH] throws that same error and stops
    in the world the failed call left: nothing is caught, logged or sent
    after it.  (The call is made once the opening log lines have printed
    the arguments: [name_text] is the string of [name], and so on.) *)
Theorem errors_propagate `{Externals} (cfg : Config) :
  (forall (name : value) (name_text : string) (w : World) (e : exn)
          (w1 : World),
      ToString name = Ok name_text ->
      apiRequest cfg "POST" "/v2/wallets" (createWallet_body name)
        (createWallet_start name_text w) = (Throw e, w1) ->
      createWallet cfg name w = (Throw e, w1)) /\
  (forall (walletId : value) (id_text : string) (w : World) (e : exn)
          (w1 : World),
      ToString walletId = Ok id_text ->
      apiRequest cfg "POST" (getDepositAddress_path id_text)
        getDepositAddress_body (getDepositAddress_start id_text w)
      = (Throw e, w1) ->
      getDepositAddress cfg walletId w = (Throw e, w1)) /\
  (forall (walletId toAddress amount : value)
          (id_text to_text amount_text : string) (w : World) (e : exn)
          (w1 : World),
      ToString walletId = Ok id_text ->
      ToString toAddress = Ok to_text ->
      ToString amount = Ok amount_text ->
      apiRequest cfg "POST" "/v2/transactions/transfer"
        (withdrawETH_body walletId toAddress amount)
        (withdrawETH_start id_text to_text amount_text w) = (Throw e, w1) ->
      withdrawETH cfg walletId toAddress amount w = (Throw e, w1)).
Proof.
  split; [|split].
  - intros name name_text w e w1 P E.
    rewrite createWallet_run, P. now rewrite E.
  - intros walletId id_text w e w1 P E.
    rewrite getDepositAddress_run, P. now rewrite E.
  - intros walletId toAddress amount id_text to_text amount_text w e w1
      P1 P2 P3 E.
    rewrite withdrawETH_run, P1, P2, P3. now rewrite E.
Qed.

(** C10 (as the code has it). On a value returned by its [apiRequest],
    [getDepositAddress] returns the [address] field of the first element
    when the value is a non-empty array whose first element is not [null],
    and the [address] field of the value itself when it is neither an array
    nor [null], provided that address converts to a string for the log
    line; when the field is missing or falsy it returns the empty string
    and does not fail. *)
Theorem getDepositAddress_address `{Externals} (cfg : Config)
    (walletId result : value) (id_text : string) (w w1 : World) :
  ToString walletId = Ok id_text ->
  apiRequest cfg "POST" (getDepositAddress_path id_text)
    getDepositAddress_body (getDepositAddress_start id_text w)
  = (Ok result, w1) ->
  (forall (first : value) (rest : list value),
      result = JArr (first :: rest) -> nullish first = false ->
      (forall text : string,
          ToString (address_or_empty first) = Ok text ->
          fst (getDepositAddress cfg walletId w)
          = Ok (address_or_empty first)) /\
      (truthy (prop_of first "address") = true ->
       address_or_empty first = prop_of first "address") /\
      (truthy (prop_of first "address") = false ->
       fst (getDepositAddress cfg walletId w) = Ok (JStr ""))) /\
  (isArray result = false -> nullish result = false ->
   (forall text : string,
       ToString (address_or_empty result) = Ok text ->
       fst (getDepositAddress cfg walletId w)
       = Ok (address_or_empty result)) /\
   (truthy (prop_of result "address") = true ->
    address_or_empty result = prop_of result "address") /\
   (truthy (prop_of result "address") = false ->
    fst (getDepositAddress cfg walletId w) = Ok (JStr ""))).
Proof.
  intros P E.
  assert (G : forall selected : value,
             (if isArray result then get_prop result "0" else Ok result)
             = Ok selected ->
             nullish selected = false ->
             (forall text : string,
                 ToString (address_or_empty selected) = Ok text ->
                 fst (getDepositAddress cfg walletId w)
                 = Ok (address_or_empty selected)) /\
             (truthy (prop_of selected "address") = true ->
              address_or_empty selected = prop_of selected "address") /\
             (truthy (prop_of selected "address") = false ->
              fst (getDepositAddress cfg walletId w) = Ok (JStr ""))).
  { intros selected S N.
    rewrite getDepositAddress_run, P, E, S.
    unfold get_prop. rewrite N.
    unfold address_or_empty, or_else.
    split; [|split].
    - intros text T. now rewrite T.
    - intros T. now rewrite T.
    - intros T. rewrite T. reflexivity. }
  split.
  - intros first rest -> N. apply G; [reflexivity | exact N].
  - intros A N. apply G; [now rewrite A | exact N].
Qed.

(** ** Loading *)

(** C9. If COBO_API_KEY or COBO_API_SECRET is unset, loading the module
    throws, so there are no exports to call; whenever the module has
    loaded, both were set (and not empty) and every exported operation is
    closed over them. *)
Theorem module_needs_credentials `{Externals} (env : Env) :
  (env "COBO_API_KEY" = None \/ env "COBO_API_SECRET" = None ->
   helper_module env = Throw missing_credentials) /\
  (forall ex : Exports,
      helper_module env = Ok ex ->
      exists cfg : Config,
        env "COBO_API_KEY" = Some (API_KEY cfg) /\
        env "COBO_API_SECRET" = Some (API_SECRET cfg) /\
        API_KEY cfg <> "" /\ API_SECRET cfg <> "" /\
        ex = mkExports (signRequest cfg) (apiRequest cfg) (createWallet cfg)
                       (getDepositAddress cfg) (withdrawETH cfg)).
Proof.
  unfold helper_module, load_config. split.
  - intros [E|E]; rewrite E; cbn [unset orb];
      [reflexivity | rewrite orb_true_r; reflexivity].
  - intros ex.
    destruct (env "COBO_API_KEY") as [k|], (env "COBO_API_SECRET") as [s|];
      cbn [unset orb]; try discriminate.
    + destruct (k =? "") eqn:K, (s =? "") eqn:S; cbn [orb]; try discriminate.
      intros E. inversion E; subst; clear E.
      apply String.eqb_neq in K, S.
      eexists (mkConfig k s _). cbn [API_KEY API_SECRET]. repeat split; auto.
    + rewrite orb_true_r. discriminate.
Qed.

(** ** Concrete runs *)

Section Runs.

#[local] Existing Instance Demo.externals.

Example paramsStr_of_example (w : World) :
  paramsStr_of (JObj [ ("offset", JNum (num 0)); ("limit", JNum (num 10));
                       ("tags", JArr [JStr "a"; JNull]); ("Z", JBool true);
                       ("note", JStr "a b") ]) w
  = (Ok ("Z=true&limit=10&note=a b&offset=0&tags=["
         ++ dquote ++ "a" ++ dquote ++ ",null]"), w).
Proof. reflexivity. Qed.

Example signRequest_example (w : World) :
  signRequest Demo.config "get" "/v2/wallets" "1700000000000"
    (JObj [("limit", JNum (num 10)); ("offset", JNum (num 0))]) w
  = (Ok "der(sign(key(c0ffee),sha256(GET|/v2/wallets|1700000000000|limit=10&offset=0)))",
     w).
Proof. reflexivity. Qed.

Example ToString_examples :
  ToString (JArr [JNum (num 1); JNull; JArr [JStr "a"; JStr "b"]; JObj []])
  = Ok "1,,a,b,[object Object]" /\
  ToString (JObj [("toString", JNum (num 0))]) = Throw not_primitive /\
  ToString (JArr [JStr "a"; JObj [("toString", JNull)]]) = Throw not_primitive.
Proof. repeat split. Qed.

(** A rejected [fetch] is rethrown by [apiRequest]. *)
Lemma apiRequest_failures_witness :
  fst (apiRequest Demo.config "POST" "/v2/wallets" (JObj [])
         (Demo.world (Rejected Demo.fetch_failed)))
  = Throw Demo.fetch_failed.
Proof.
  pose proof (apiRequest_failures Demo.config "POST" "/v2/wallets" (JObj [])
                (Demo.world (Rejected Demo.fetch_failed))) as T.
  cbv zeta in T. destruct T as (_ & R & _).
  apply R. vm_compute. reflexivity.
Defined.

(** The created wallet comes back unchanged. *)
Lemma createWallet_returns_result_witness :
  fst (createWallet Demo.config (JStr "Test Wallet")
         (Demo.world (Demo.replies 201 "Created" Demo.wallet)))
  = Ok Demo.wallet.
Proof.
  pose proof (createWallet_returns_result Demo.config (JStr "Test Wallet")
                "Test Wallet"
                (Demo.world (Demo.replies 201 "Created" Demo.wallet))
                eq_refl) as T.
  cbv zeta in T. destruct T as (_ & R).
  eapply (R Demo.wallet _ "w-1"); [|reflexivity|reflexivity].
  apply injective_projections; cbn [fst snd]; [vm_compute|]; reflexivity.
Defined.

(** The API answers 200 with the JSON text [null]: [apiRequest] returns
    [null], and [createWallet] throws on reading [wallet_id] instead of
    returning it. *)
Lemma createWallet_null_result :
  fst (apiRequest Demo.config "POST" "/v2/wallets"
         (JObj [("name", JStr "w"); ("wallet_type", JStr "Custodial")])
         (createWallet_start "w" (Demo.world (Demo.replies 200 "OK" JNull))))
  = Ok JNull /\
  fst (createWallet Demo.config (JStr "w")
         (Demo.world (Demo.replies 200 "OK" JNull)))
  = Throw (TypeError "Cannot read properties of null (reading 'wallet_id')").
Proof. split; vm_compute; reflexivity. Qed.

(** The API answers with a wallet whose [wallet_id] is an object with an
    own [toString] property: the log line cannot print it, and the wallet
    is not returned. *)
Example createWallet_unprintable_id :
  let answer := JObj [("wallet_id", JObj [("toString", JNum (num 0))])] in
  fst (apiRequest Demo.config "POST" "/v2/wallets"
         (JObj [("name", JStr "w"); ("wallet_type", JStr "Custodial")])
         (createWallet_start "w" (Demo.world (Demo.replies 200 "OK" answer))))
  = Ok answer /\
  fst (createWallet Demo.config (JStr "w")
         (Demo.world (Demo.replies 200 "OK" answer)))
  = Throw not_primitive.
Proof. split; vm_compute; reflexivity. Qed.

(** A name that cannot be printed: nothing is sent. *)
Example createWallet_unprintable_name :
  let run := createWallet Demo.config (JObj [("toString", JNum (num 0))])
               (Demo.world (Demo.replies 200 "OK" Demo.wallet)) in
  fst run = Throw not_primitive /\ calls (snd run) = [].
Proof. split; vm_compute; reflexivity. Qed.

(** With the network down, each convenience function throws the error of
    [fetch]. *)
Lemma errors_propagate_witness :
  let w := Demo.world (Rejected Demo.fetch_failed) in
  fst (createWallet Demo.config (JStr "Test Wallet") w)
  = Throw Demo.fetch_failed /\
  fst (getDepositAddress Demo.config (JStr "w-1") w)
  = Throw Demo.fetch_failed /\
  fst (withdrawETH Demo.config (JStr "w-1") (JStr "0xdef") (JStr "0.01") w)
  = Throw Demo.fetch_failed.
Proof.
  intros w.
  destruct (errors_propagate Demo.config) as (C & G & W).
  split; [|split].
  - erewrite (C _ "Test Wallet"); [reflexivity|reflexivity|].
    apply injective_projections; cbn [fst snd]; [vm_compute|]; reflexivity.
  - erewrite (G _ "w-1"); [reflexivity|reflexivity|].
    apply injective_projections; cbn [fst snd]; [vm_compute|]; reflexivity.
  - erewrite (W _ _ _ "w-1" "0xdef" "0.01");
      [reflexivity|reflexivity|reflexivity|reflexivity|].
    apply injective_projections; cbn [fst snd]; [vm_compute|]; reflexivity.
Defined.

Example getDepositAddress_missing_address :
  fst (getDepositAddress Demo.config (JStr "w-1")
         (Demo.world (Demo.replies 200 "OK" (JObj []))))
  = Ok (JStr "").
Proof. vm_compute. reflexivity. Qed.

(** The API answers 200 with [[null]]: [apiRequest] returns the array, a
    non-empty one, and [getDepositAddress] throws on reading the [address]
    of its first element. *)
Lemma getDepositAddress_null_element :
  fst (apiRequest Demo.config "POST" (getDepositAddress_path "w-1")
         getDepositAddress_body
         (getDepositAddress_start "w-1"
            (Demo.world (Demo.replies 200 "OK" (JArr [JNull])))))
  = Ok (JArr [JNull]) /\
  fst (getDepositAddress Demo.config (JStr "w-1")
         (Demo.world (Demo.replies 200 "OK" (JArr [JNull]))))
  = Throw (TypeError "Cannot read properties of null (reading 'address')").
Proof. split; vm_compute; reflexivity. Qed.

(** An address that cannot be printed is not returned either. *)
Example getDepositAddress_unprintable_address :
  fst (getDepositAddress Demo.config (JStr "w-1")
         (Demo.world (Demo.replies 200 "OK"
                        (JObj [("address", JObj [("toString", JNum (num 0))])]))))
  = Throw not_primitive.
Proof. vm_compute. reflexivity. Qed.

(** A body that is not JSON: the second read of the body, in the handler,
    is what throws. *)
Example apiRequest_not_json :
  fst (apiRequest Demo.config "GET" "/v2/wallets" JNull
         (Demo.world (Resolved (mkResponse (num 502) "Bad Gateway"
                                  (Some "<html>")))))
  = Throw body_unusable.
Proof. vm_compute. reflexivity. Qed.

(** The first address of the returned array. *)
Lemma getDepositAddress_address_witness :
  fst (getDepositAddress Demo.config (JStr "w-1")
         (Demo.world (Demo.replies 200 "OK" Demo.addresses)))
  = Ok (JStr "0xabc").
Proof.
  refine (proj1 (proj1 (getDepositAddress_address Demo.config (JStr "w-1")
                          Demo.addresses "w-1"
                          (Demo.world (Demo.replies 200 "OK" Demo.addresses))
                          _ eq_refl _)
                   _ _ eq_refl eq_refl) "0xabc" eq_refl).
  apply injective_projections; cbn [fst snd]; [vm_compute|]; reflexivity.
Defined.

Example module_loads_with_credentials :
  load_config Demo.env_full = Ok Demo.config /\
  exists ex : Exports, helper_module Demo.env_full = Ok ex.
Proof. split; [reflexivity | eexists; reflexivity]. Qed.

(** Without COBO_API_SECRET the module does not load. *)
Lemma module_needs_credentials_witness :
  Demo.env_no_secret "COBO_API_SECRET" = None /\
  helper_module Demo.env_no_secret = Throw missing_credentials.
Proof.
  split; [reflexivity|].
  apply (proj1 (module_needs_credentials Demo.env_no_secret)).
  right. reflexivity.
Defined.

End Runs.

(** ** Further properties of the code *)

(** ** One [apiRequest], exactly *)

Ltac run_apiRequest :=
  cbv [apiRequest bind Date_now console_log console_error write try_catch
       fetch ret throw liftR];
  cbn [clock ticks network calls console];
  rewrite ?signRequest_run;
  cbn [clock ticks network calls console].

Lemma apiRequest_exact `{Externals} (cfg : Config) (method path : string)
      (bodyObj : value) (w : World) :
  let run := apiRequest cfg method path bodyObj w in
  fst run = outcome_result (outcome_of cfg method path bodyObj w) /\
  calls (snd run) = (calls w ++ [request_of cfg method path bodyObj w])%list /\
  clock (snd run) = clock w /\
  network (snd run) = network w /\
  ticks (snd run) = S (S (ticks w)).
Proof.
  cbv zeta.
  unfold outcome_of, request_of, nonce_at, body_of, outcome_result,
    response_result, apiRequest.
  set (b := default_arg bodyObj JNull).
  run_apiRequest.
  destruct (truthy b) eqn:T; cbn [clock ticks network calls console];
    (match goal with
     | |- context [network w ?n ?req] =>
         destruct (network w n req) as [err|r]
     end;
     [ repeat split | ]);
    unfold Response_json, Response_text, unusable, body_text;
    destruct (body r) as [t|]; cbn [fst snd];
    (destruct (JSON_parse _) as [v|];
     [ destruct (ok r); cbn [negb];
       [ | destruct (get_prop v "message") as [msg|];
           [ destruct (ToString (or_else msg (JStr (statusText r)))) | ] ]
     | ]);
    repeat split.
Qed.

Lemma logged_frame (w : World) (lines : list string) :
  clock (logged w lines) = clock w /\
  network (logged w lines) = network w /\
  ticks (logged w lines) = ticks w.
Proof.
  unfold logged. revert w.
  induction lines as [|l t IH]; intros w; cbn [fold_left]; [repeat split|].
  destruct (IH (snd (console_log l w))) as (C & N & T).
  rewrite C, N, T. repeat split.
Qed.

(** ** The request wrapper: which error *)

(** X1. When the status is not 2xx and the body parses to a value other
    than [null], the error thrown is an [Error] whose message carries the
    status and the [message] field of the body, or the status text when
    that field is missing or falsy; when that value cannot be converted to
    a string, the TypeError of the conversion is thrown instead. *)
Theorem apiRequest_status_error `{Externals} (cfg : Config)
    (method path : string) (bodyObj : value) (w : World) (r : Response)
    (result : value) :
  outcome_of cfg method path bodyObj w = Resolved r ->
  JSON_parse (body_text r) = Some result ->
  ~ is_2xx r ->
  nullish result = false ->
  fst (apiRequest cfg method path bodyObj w)
  = match ToString (if truthy (prop_of result "message")
                    then prop_of result "message"
                    else JStr (statusText r)) with
    | Ok text =>
        Throw (Error ("API request failed with status "
                      ++ Number_toString (status r) ++ ": " ++ text))
    | Throw e => Throw e
    end.
Proof.
  intros O P N V.
  destruct (apiRequest_exact cfg method path bodyObj w) as (E & _).
  rewrite E, O. unfold outcome_result, response_result. rewrite P.
  destruct (ok r) eqn:K; [apply ok_is_2xx in K; contradiction|].
  unfold get_prop. rewrite V. reflexivity.
Qed.

(** X2. When the body of the response does not parse: if there is a body,
    reading it a second time in the handler throws the TypeError of a used
    body, and the module's own error is not reached; only for a response
    without a body is [API returned non-JSON response] thrown. *)
Theorem apiRequest_unparsable_body `{Externals} (cfg : Config)
    (method path : string) (bodyObj : value) (w : World) (r : Response) :
  outcome_of cfg method path bodyObj w = Resolved r ->
  JSON_parse (body_text r) = None ->
  (forall text, body r = Some text ->
     fst (apiRequest cfg method path bodyObj w) = Throw body_unusable) /\
  (body r = None ->
     fst (apiRequest cfg method path bodyObj w)
     = Throw (Error ("API returned non-JSON response (status "
                     ++ Number_toString (status r) ++ ")"))).
Proof.
  intros O P.
  destruct (apiRequest_exact cfg method path bodyObj w) as (E & _).
  rewrite E, O. unfold outcome_result, response_result. rewrite P.
  split; [intros text B | intros B]; now rewrite B.
Qed.

(** ** The convenience functions: requests and failures *)

Section ConvenienceMore.

Context {ext : Externals}.
Variable cfg : Config.

Lemma createWallet_calls (name : value) (name_text : string) (w : World) :
  ToString name = Ok name_text ->
  calls (snd (createWallet cfg name w))
  = (calls w ++ [request_of cfg "POST" "/v2/wallets" (createWallet_body name)
                   (createWallet_start name_text w)])%list.
Proof.
  intros P. rewrite createWallet_run, P.
  pose proof (apiRequest_calls cfg "POST" "/v2/wallets"
                (createWallet_body name) (createWallet_start name_text w)) as C.
  unfold createWallet_start at 2 in C. rewrite logged_calls in C.
  destruct (apiRequest _ _ _ _ _) as [[result|e] w1]; cbn [snd] in C |- *;
    [|exact C].
  destruct (get_prop result "wallet_id") as [wallet_id|]; cbn [snd];
    [|exact C].
  destruct (ToString wallet_id); cbn [snd];
    [rewrite logged_calls|]; exact C.
Qed.

Lemma getDepositAddress_calls (walletId : value) (id_text : string)
      (w : World) :
  ToString walletId = Ok id_text ->
  calls (snd (getDepositAddress cfg walletId w))
  = (calls w ++ [request_of cfg "POST" (getDepositAddress_path id_text)
                   getDepositAddress_body
                   (getDepositAddress_start id_text w)])%list.
Proof.
  intros P. rewrite getDepositAddress_run, P.
  pose proof (apiRequest_calls cfg "POST" (getDepositAddress_path id_text)
                getDepositAddress_body (getDepositAddress_start id_text w))
    as C.
  unfold getDepositAddress_start at 2 in C. rewrite logged_calls in C.
  destruct (apiRequest _ _ _ _ _) as [[result|e] w1]; cbn [snd] in C |- *;
    [|exact C].
  destruct (if isArray result then get_prop result "0" else Ok result)
    as [info|]; cbn [snd]; [|exact C].
  destruct (get_prop info "address") as [address|]; cbn [snd]; [|exact C].
  destruct (ToString (or_else address (JStr ""))); cbn [snd];
    [rewrite logged_calls|]; exact C.
Qed.

Lemma withdrawETH_calls (walletId toAddress amount : value)
      (id_text to_text amount_text : string) (w : World) :
  ToString walletId = Ok id_text ->
  ToString toAddress = Ok to_text ->
  ToString amount = Ok amount_text ->
  calls (snd (withdrawETH cfg walletId toAddress amount w))
  = (calls w ++ [request_of cfg "POST" "/v2/transactions/transfer"
                   (withdrawETH_body walletId toAddress amount)
                   (withdrawETH_start id_text to_text amount_text w)])%list.
Proof.
  intros P1 P2 P3. rewrite withdrawETH_run, P1, P2, P3.
  pose proof (apiRequest_calls cfg "POST" "/v2/transactions/transfer"
                (withdrawETH_body walletId toAddress amount)
                (withdrawETH_start id_text to_text amount_text w)) as C.
  unfold withdrawETH_start at 2 in C. rewrite logged_calls in C.
  destruct (apiRequest _ _ _ _ _) as [[result|e] w1]; cbn [snd] in C |- *;
    [rewrite logged_calls|]; exact C.
Qed.

(** X3. Given arguments that convert to strings, [withdrawETH] sends one
    request, a POST to [/v2/transactions/transfer] whose body is the JSON
    text of [{source_wallet_id, token_id: 'ETH', to_address, amount}], and
    ends as its [apiRequest] ends: it returns any result unchanged, [null]
    included, and throws what the call throws.  Given an argument that
    does not convert, it throws while logging and sends nothing. *)
Theorem withdrawETH_passes_through (walletId toAddress amount : value)
    (w : World) :
  let body := JObj [ ("source_wallet_id", walletId); ("token_id", JStr "ETH");
                     ("to_address", toAddress); ("amount", amount) ] in
  (forall id_text to_text amount_text : string,
      ToString walletId = Ok id_text ->
      ToString toAddress = Ok to_text ->
      ToString amount = Ok amount_text ->
      fst (withdrawETH cfg walletId toAddress amount w)
      = fst (apiRequest cfg "POST" "/v2/transactions/transfer" body
               (withdrawETH_start id_text to_text amount_text w)) /\
      exists req : Request,
        calls (snd (withdrawETH cfg walletId toAddress amount w))
        = (calls w ++ [req])%list /\
        req_method req = "POST" /\
        req_url req = BASE_URL cfg ++ "/v2/transactions/transfer" /\
        req_body req = JSON_stringify body) /\
  (forall e : exn,
      ToString walletId = Throw e \/ ToString toAddress = Throw e \/
      ToString amount = Throw e ->
      calls (snd (withdrawETH cfg walletId toAddress amount w)) = calls w /\
      exists e' : exn,
        fst (withdrawETH cfg walletId toAddress amount w) = Throw e').
Proof.
  intros body. split.
  - intros id_text to_text amount_text P1 P2 P3. split.
    + rewrite withdrawETH_run, P1, P2, P3.
      change (withdrawETH_body walletId toAddress amount) with body.
      destruct (apiRequest _ _ _ _ _) as [[result|e] w1]; reflexivity.
    + eexists. rewrite (withdrawETH_calls _ _ _ _ _ _ _ P1 P2 P3).
      repeat split.
  - intros e C. rewrite withdrawETH_run.
    destruct (ToString walletId) as [id_text|e1];
      [|cbn [fst snd]; rewrite logged_calls; eauto].
    destruct (ToString toAddress) as [to_text|e2];
      [|cbn [fst snd]; rewrite logged_calls; eauto].
    destruct (ToString amount) as [amount_text|e3];
      [|cbn [fst snd]; rewrite logged_calls; eauto].
    destruct C as [C | [C | C]]; discriminate C.
Qed.

(** X4. Given a wallet id that converts to a string, [getDepositAddress]
    sends one request whatever the answer: a POST to
    [/v2/wallets/<id>/addresses] with the JSON text of [{chain_id: 'ETH'}]
    as its body.  Given one that does not convert, it throws the TypeError
    of the conversion after its first log line and sends nothing. *)
Theorem getDepositAddress_one_request (walletId : value) (w : World) :
  (forall id_text : string,
      ToString walletId = Ok id_text ->
      exists req : Request,
        calls (snd (getDepositAddress cfg walletId w))
        = (calls w ++ [req])%list /\
        req_method req = "POST" /\
        req_url req = BASE_URL cfg ++ "/v2/wallets/" ++ id_text ++ "/addresses" /\
        req_body req = JSON_stringify (JObj [("chain_id", JStr "ETH")])) /\
  (forall e : exn,
      ToString walletId = Throw e ->
      fst (getDepositAddress cfg walletId w) = Throw e /\
      calls (snd (getDepositAddress cfg walletId w)) = calls w).
Proof.
  split.
  - intros id_text P. eexists.
    rewrite (getDepositAddress_calls _ _ _ P). repeat split.
  - intros e P. rewrite getDepositAddress_run, P. cbn [fst snd].
    rewrite logged_calls. split; reflexivity.
Qed.

(** X5. [getDepositAddress] throws a TypeError, and logs no address, when
    the returned value has no element to read the address from: an empty
    array (its first element is [undefined]), [null], or an array whose
    first element is [null]. *)
Theorem getDepositAddress_nothing_selected (walletId result : value)
    (id_text : string) (w w1 : World) :
  let selected := match result with
                  | JArr [] => JUndefined
                  | JArr (first :: _) => first
                  | _ => result
                  end in
  ToString walletId = Ok id_text ->
  apiRequest cfg "POST" (getDepositAddress_path id_text)
    getDepositAddress_body (getDepositAddress_start id_text w)
  = (Ok result, w1) ->
  nullish selected = true ->
  getDepositAddress cfg walletId w
  = (Throw (cannot_read selected "address"), w1).
Proof.
  intros selected P E N. rewrite getDepositAddress_run, P, E.
  destruct result as [| | | | |[|first rest]|]; cbn [isArray];
    subst selected; try discriminate N.
  - reflexivity.
  - reflexivity.
  - reflexivity.
  - replace (get_prop (JArr (first :: rest)) "0") with (@Ok value first)
      by reflexivity.
    unfold get_prop. rewrite N. reflexivity.
Qed.

(** X6. [createWallet] never returns [null]: when its [apiRequest] returns
    [null], reading [wallet_id] for the log line throws a TypeError and
    nothing is logged after the call; so a value it does return is an
    object the caller can read fields of. *)
Theorem createWallet_never_null (name : value) (w : World) :
  (forall (name_text : string) (result : value) (w1 : World),
      ToString name = Ok name_text ->
      apiRequest cfg "POST" "/v2/wallets" (createWallet_body name)
        (createWallet_start name_text w) = (Ok result, w1) ->
      nullish result = true ->
      createWallet cfg name w
      = (Throw (cannot_read result "wallet_id"), w1)) /\
  (forall wallet : value,
      fst (createWallet cfg name w) = Ok wallet -> nullish wallet = false).
Proof.
  split.
  - intros name_text result w1 P E N. rewrite createWallet_run, P, E.
    unfold get_prop. rewrite N. reflexivity.
  - intros wallet. rewrite createWallet_run.
    destruct (ToString name) as [name_text|]; [|discriminate].
    destruct (apiRequest _ _ _ _ _) as [[result|e] w1]; [|discriminate].
    unfold get_prop.
    destruct (nullish result) eqn:N; cbn [fst]; [discriminate|].
    destruct (ToString (prop_of result "wallet_id")); cbn [fst];
      [|discriminate].
    intros E. inversion E; subst. exact N.
Qed.

End ConvenienceMore.

(** ** Nonces and what is logged *)

Lemma Number_toString_inj (a b : number) :
  Number_toString a = Number_toString b -> a = b.
Proof.
  unfold Number_toString, decimal. intros E.
  apply number_eq.
  apply DecimalZ.to_int_inj.
  revert E. generalize (to_Z a) (to_Z b). clear a b. intros a b E.
  assert (N : forall z, Z.to_int z <> Decimal.Pos Decimal.Nil /\
                        Z.to_int z <> Decimal.Neg Decimal.Nil).
  { intros [|p|p]; split; simpl; try discriminate;
      intros [= F]; now apply DecimalPos.Unsigned.to_uint_nonnil in F. }
  destruct (N a) as (Pa & Na), (N b) as (Pb & Nb).
  pose proof (NilZero.isi _ Pa Na) as Ia.
  pose proof (NilZero.isi _ Pb Nb) as Ib.
  rewrite E in Ia. congruence.
Qed.

(** X7. The nonce is the clock reading and nothing else: a second
    [apiRequest] with the same arguments, made right after the first,
    sends a request identical to the first (same nonce, same signature)
    exactly when the clock shows the same millisecond at both calls. *)
Theorem nonce_repeats_with_clock `{Externals} (cfg : Config)
    (method path : string) (bodyObj : value) (w : World) :
  let w1 := snd (apiRequest cfg method path bodyObj w) in
  exists req1 req2 : Request,
    calls (snd (apiRequest cfg method path bodyObj w1))
    = (calls w ++ [req1; req2])%list /\
    (req1 = req2 <-> clock w (ticks w) = clock w (S (S (ticks w)))).
Proof.
  intros w1.
  destruct (apiRequest_exact cfg method path bodyObj w) as (_ & C & K & _ & T).
  fold w1 in C, K, T.
  exists (request_of cfg method path bodyObj w),
         (request_of cfg method path bodyObj w1).
  split.
  - rewrite apiRequest_calls, C, <- app_assoc. reflexivity.
  - unfold request_of, nonce_at. rewrite K, T. split.
    + intros [= E _]. now apply Number_toString_inj.
    + intros ->. reflexivity.
Qed.

(** X8. The console output and the result of an [apiRequest] do not depend
    on the API key or the secret: with the same base URL and the same
    answer from the network, two configurations log the same lines and
    end alike.  Key, nonce and signature reach the request headers only. *)
Theorem apiRequest_logs_no_credentials `{Externals} (cfg1 cfg2 : Config)
    (method path : string) (bodyObj : value) (w : World) :
  BASE_URL cfg1 = BASE_URL cfg2 ->
  outcome_of cfg1 method path bodyObj w = outcome_of cfg2 method path bodyObj w ->
  console (snd (apiRequest cfg1 method path bodyObj w))
  = console (snd (apiRequest cfg2 method path bodyObj w)) /\
  fst (apiRequest cfg1 method path bodyObj w)
  = fst (apiRequest cfg2 method path bodyObj w).
Proof.
  intros B O. split.
  - revert O.
    unfold outcome_of, request_of, nonce_at, body_of, apiRequest.
    set (b := default_arg bodyObj JNull).
    run_apiRequest. rewrite B. intros O.
    destruct (truthy b) eqn:T; cbn [clock ticks network calls console];
      rewrite O;
      (match goal with
       | |- context [network w ?n ?req] =>
           destruct (network w n req) as [err|r]
       end; [reflexivity|]);
      unfold Response_json, Response_text, unusable, body_text;
      destruct (body r) as [t|]; cbn [fst snd];
      (destruct (JSON_parse _) as [v|];
       [ destruct (ok r); cbn [negb];
         [ | destruct (get_prop v "message") as [msg|];
             [ destruct (ToString (or_else msg (JStr (statusText r)))) | ] ]
       | ]);
      reflexivity.
  - destruct (apiRequest_exact cfg1 method path bodyObj w) as (E1 & _).
    destruct (apiRequest_exact cfg2 method path bodyObj w) as (E2 & _).
    rewrite E1, E2, O. reflexivity.
Qed.

(** ** Loading: when the module loads *)

(** X9. The module loads exactly when COBO_API_KEY and COBO_API_SECRET are
    both set to non-empty strings (an empty value counts as missing); the
    constants are then those two values, and the base URL is COBO_BASE_URL
    when that is set and not empty, else [https://api.cobo.com]. *)
Theorem module_loads_iff (env : Env) :
  (forall cfg : Config,
      load_config env = Ok cfg <->
      env "COBO_API_KEY" = Some (API_KEY cfg) /\ API_KEY cfg <> "" /\
      env "COBO_API_SECRET" = Some (API_SECRET cfg) /\ API_SECRET cfg <> "" /\
      BASE_URL cfg = match env "COBO_BASE_URL" with
                     | Some u => if u =? "" then "https://api.cobo.com" else u
                     | None => "https://api.cobo.com"
                     end) /\
  (env "COBO_API_KEY" = None \/ env "COBO_API_KEY" = Some "" \/
   env "COBO_API_SECRET" = None \/ env "COBO_API_SECRET" = Some "" ->
   load_config env = Throw missing_credentials).
Proof.
  unfold load_config. split.
  - intros [k s u]. cbn [API_KEY API_SECRET BASE_URL].
    destruct (env "COBO_API_KEY") as [k'|], (env "COBO_API_SECRET") as [s'|];
      cbn [unset orb]; rewrite ?orb_true_r.
    + destruct (String.eqb_spec k' ""), (String.eqb_spec s' "");
        cbn [orb]; (split; [intros [=]; subst; tauto|]);
        intros ([= ->] & Nk & [= ->] & Ns & ->); try contradiction.
      reflexivity.
    + split; [discriminate | intros (_ & _ & [=] & _)].
    + split; [discriminate | intros ([=] & _)].
    + split; [discriminate | intros ([=] & _)].
  - intros [E | [E | [E | E]]]; rewrite E; cbn [unset orb String.eqb];
      rewrite ?orb_true_r; reflexivity.
Qed.

(** ** The canonical parameter string *)

Lemma sorted_perm_unique (l l' : list string) :
  StronglySorted key_le l -> StronglySorted key_le l' ->
  Permutation l l' -> l = l'.
Proof.
  intros S. revert l'.
  induction S as [|a t St IH Ha]; intros l' S' P.
  - apply Permutation_nil in P. now subst.
  - destruct S' as [|b t' St' Hb].
    + symmetry in P. now apply Permutation_nil in P.
    + assert (E : a = b).
      { assert (Ia : In a (b :: t'))
          by (eapply Permutation_in; [exact P | now left]).
        assert (Ib : In b (a :: t))
          by (eapply Permutation_in; [symmetry; exact P | now left]).
        destruct Ia as [->|Ia]; [reflexivity|].
        destruct Ib as [->|Ib]; [reflexivity|].
        rewrite Forall_forall in Ha, Hb.
        apply String.leb_antisym; [apply Ha | apply Hb]; assumption. }
      subst b. f_equal. apply IH; [exact St'|].
      eapply Permutation_cons_inv; exact P.
Qed.

Lemma assoc_perm (k : string) (props props' : list (string * value)) :
  NoDup (map fst props) -> Permutation props props' ->
  assoc k props = assoc k props'.
Proof.
  intros D P. induction P as [|[k1 v1] l l' P IH|[k1 v1] [k2 v2] l|l l' l'' P IH P' IH'].
  - reflexivity.
  - simpl. inversion D; subst. now rewrite IH.
  - simpl. inversion D as [|? ? N _]; subst.
    destruct (String.eqb_spec k1 k), (String.eqb_spec k2 k); try reflexivity.
    subst. exfalso. apply N. now left.
  - rewrite IH by exact D. apply IH'.
    eapply Permutation_NoDup; [|exact D]. now apply Permutation_map.
Qed.

(** X10. The order in which the properties of a params object were written
    does not matter: two objects with the same properties (distinct keys)
    in any order have the same parameter string, hence the same
    signature. *)
Theorem params_order_irrelevant `{Externals} (cfg : Config)
    (method path nonce : string) (props props' : list (string * value))
    (w : World) :
  NoDup (map fst props) ->
  Permutation props props' ->
  paramsStr_of (JObj props) w = paramsStr_of (JObj props') w /\
  signRequest cfg method path nonce (JObj props) w
  = signRequest cfg method path nonce (JObj props') w.
Proof.
  intros D P.
  assert (C : canonical (JObj props) = canonical (JObj props')).
  { unfold canonical. cbn [default_arg own_props].
    assert (K : sort (map fst props) = sort (map fst props')).
    { apply sorted_perm_unique; try apply sort_strongly_sorted.
      rewrite !sort_perm. now apply Permutation_map. }
    rewrite <- K. f_equal. apply map_ext.
    intros k. unfold pair_text, value_at.
    now rewrite (assoc_perm k props props' D P). }
  rewrite !paramsStr_of_canonical, !signRequest_run.
  unfold signed_message. now rewrite C.
Qed.

Lemma append_assoc (a b c : string) : (a ++ b) ++ c = a ++ (b ++ c).
Proof. induction a as [|x a IH]; simpl; [reflexivity | now rewrite IH]. Qed.

(** X11. Values are written into the parameter string as they are, with no
    quoting or escaping: a string value that contains [&k'=v'] signs like
    the object with the extra property [k'], and a number (a safe integer)
    signs like the string of its digits.  Different requests can carry one
    signature. *)
Theorem params_not_escaped `{Externals} (cfg : Config)
    (method path nonce : string) (k v k' v' : string) (n : number)
    (w : World) :
  (k <? k') = true ->
  signRequest cfg method path nonce
    (JObj [(k, JStr (v ++ "&" ++ k' ++ "=" ++ v'))]) w
  = signRequest cfg method path nonce (JObj [(k, JStr v); (k', JStr v')]) w /\
  signRequest cfg method path nonce (JObj [(k, JNum n)]) w
  = signRequest cfg method path nonce (JObj [(k, JStr (Number_toString n))]) w.
Proof.
  intros L. rewrite !signRequest_run. unfold signed_message.
  split;
    [|unfold canonical, pair_text, value_at;
      cbn [default_arg own_props map fst sort insert_sorted assoc];
      now rewrite !String.eqb_refl].
  do 4 f_equal.
  unfold canonical. cbn [default_arg own_props map fst sort insert_sorted].
  assert (Le : (k <=? k') = true /\ (k =? k') = false).
  { unfold String.ltb in L. unfold String.leb.
    destruct (k ?= k') eqn:E; try discriminate L. split; [reflexivity|].
    apply String.eqb_neq. intros ->.
    pose proof (String.compare_antisym k' k') as A.
    rewrite E in A. discriminate A. }
  destruct Le as (Le & Ne). rewrite Le.
  cbn [map String.concat]. unfold pair_text, value_at.
  cbn [assoc]. rewrite !String.eqb_refl, Ne.
  cbn [value_text]. now rewrite !append_assoc.
Qed.

(** ** The method *)

Lemma upper_ascii_idem (c : ascii) : upper_ascii (upper_ascii c) = upper_ascii c.
Proof.
  destruct c as [[] [] [] [] [] [] [] []]; reflexivity.
Qed.

Lemma toUpperCase_idem (s : string) : toUpperCase (toUpperCase s) = toUpperCase s.
Proof.
  induction s as [|c s IH]; simpl; [reflexivity|].
  now rewrite upper_ascii_idem, IH.
Qed.

(** X12. The method is taken without regard to case: [signRequest] signs
    the upper-case method, and [apiRequest] signs, logs and sends it, so a
    call with a method and the call with that method in upper case run
    alike, in every respect. *)
Theorem method_case_irrelevant `{Externals} (cfg : Config)
    (method path nonce : string) (params bodyObj : value) (w : World) :
  signRequest cfg (toUpperCase method) path nonce params w
  = signRequest cfg method path nonce params w /\
  apiRequest cfg (toUpperCase method) path bodyObj w
  = apiRequest cfg method path bodyObj w.
Proof.
  split.
  - rewrite !signRequest_run. unfold signed_message.
    now rewrite toUpperCase_idem.
  - unfold apiRequest. run_apiRequest.
    unfold signed_message. rewrite !toUpperCase_idem. reflexivity.
Qed.

(** ** Falsy bodies *)

(** X13. A body that is falsy ([0], [false], the empty string, or absent) is
    treated as no body at all: the call runs exactly as the call with
    [null], signing the empty parameter string and sending no body. *)
Theorem apiRequest_falsy_body `{Externals} (cfg : Config)
    (method path : string) (bodyObj : value) (w : World) :
  truthy bodyObj = false ->
  apiRequest cfg method path bodyObj w = apiRequest cfg method path JNull w /\
  exists req : Request,
    calls (snd (apiRequest cfg method path bodyObj w))
    = (calls w ++ [req])%list /\
    req_body req = None /\
    In ("BIZ-API-SIGNATURE",
        signature_of cfg
          (toUpperCase method ++ "|" ++ path ++ "|" ++ nonce_at w ++ "|"))
       (req_headers req).
Proof.
  intros T.
  assert (T' : truthy (default_arg bodyObj JNull) = false)
    by (destruct bodyObj; try discriminate T; assumption || reflexivity).
  split.
  - unfold apiRequest. run_apiRequest.
    unfold signed_message, canonical, or_else.
    cbn [default_arg truthy]. rewrite T'. reflexivity.
  - eexists. rewrite apiRequest_calls. split; [reflexivity|].
    unfold request_of, body_of. cbn [req_body req_headers].
    rewrite T'. split; [reflexivity|].
    unfold signed_message, canonical, or_else. rewrite T'.
    simpl. tauto.
Qed.

(** ** The example script *)

Ltac run_prims :=
  cbv [bind Date_now console_log console_error write try_catch ret throw liftR];
  cbn [clock ticks network calls console fst snd].

(** Runs [main] up to the results of its three calls. *)
Ltac enter_main :=
  unfold main, helper_exports;
  cbn [exp_signRequest exp_createWallet exp_getDepositAddress exp_apiRequest];
  run_prims; rewrite signRequest_run; run_prims.

Ltac step_createWallet C wallet e wb :=
  match goal with
  | |- context [createWallet ?cfg (JStr ?s) ?wa] =>
      pose proof (createWallet_calls cfg (JStr s) s wa eq_refl) as C;
      destruct (createWallet cfg (JStr s) wa) as [[wallet|e] wb];
      cbn [calls snd] in C
  end.

Ltac step_getDepositAddress P C addr e wd :=
  match goal with
  | |- context [getDepositAddress ?cfg ?a ?wc] =>
      pose proof (getDepositAddress_calls cfg a _ wc P) as C;
      destruct (getDepositAddress cfg a wc) as [[addr|e] wd];
      cbn [calls snd] in C
  end.

Ltac step_apiRequest C lst e wf :=
  match goal with
  | |- context [apiRequest ?cfg ?m ?p ?b ?we] =>
      pose proof (apiRequest_calls cfg m p b we) as C;
      destruct (apiRequest cfg m p b we) as [[lst|e] wf];
      cbn [calls snd] in C
  end.

(** After the first call has returned [wallet]: the remaining steps of
    [main], each of which may throw. *)
Ltac walk_main wallet wid P2 C2 C3 :=
  destruct (get_prop wallet "wallet_id") as [wid|];
  [ destruct (ToString wid) as [?id_text|] eqn:P2;
    [ step_getDepositAddress P2 C2 ipattern:(?addr) ipattern:(?e2)
        ipattern:(?wd);
      [ match goal with
        | |- context [ToString ?a] => destruct (ToString a)
        end;
        [ step_apiRequest C3 ipattern:(?lst) ipattern:(?e3) ipattern:(?wf);
          [ match goal with
            | |- context [get_prop ?l "length"] =>
                destruct (get_prop l "length") as [?len|]
            end;
            [ match goal with
              | |- context [ToString ?a] => destruct (ToString a)
              end
            | ]
          | ]
        | ]
      | ]
    | ]
  | ].

Lemma main_catches_all (helper : Exports) (w : World) :
  exists e : ending, fst (main helper w) = Ok e.
Proof.
  unfold main, try_catch.
  match goal with
  | |- context [let (r, w') := ?body w in _] => destruct (body w) as [[e|err] w']
  end; eexists; reflexivity.
Qed.

Section Script.

Context {ext : Externals}.
Variable cfg : Config.

Lemma createWallet_outcome (name : value) (name_text : string) (w : World) :
  ToString name = Ok name_text ->
  fst (createWallet cfg name w)
  = match outcome_result
            (network w (List.length (calls w))
               (request_of cfg "POST" "/v2/wallets" (createWallet_body name)
                  (createWallet_start name_text w))) with
    | Ok result =>
        match get_prop result "wallet_id" with
        | Ok wallet_id =>
            match ToString wallet_id with
            | Ok _ => Ok result
            | Throw e => Throw e
            end
        | Throw e => Throw e
        end
    | Throw e => Throw e
    end.
Proof.
  intros P. rewrite createWallet_run, P.
  destruct (apiRequest_exact cfg "POST" "/v2/wallets" (createWallet_body name)
              (createWallet_start name_text w)) as (E & _).
  unfold outcome_of in E.
  unfold createWallet_start at 2 3 in E.
  rewrite logged_calls in E.
  destruct (logged_frame w ["--- Creating a new wallet ---";
                            "Wallet Name: " ++ name_text]) as (_ & N & _).
  rewrite N in E. clear N. rewrite <- E.
  destruct (apiRequest _ _ _ _ _) as [[result|e] w1]; cbn [fst];
    [|reflexivity].
  destruct (get_prop result "wallet_id") as [wallet_id|]; [|reflexivity].
  destruct (ToString wallet_id); reflexivity.
Qed.

Lemma createWallet_ok (name wallet : value) (name_text : string)
      (w wb : World) :
  ToString name = Ok name_text ->
  createWallet cfg name w = (Ok wallet, wb) ->
  nullish wallet = false /\
  exists resp : Response,
    network w (List.length (calls w))
      (request_of cfg "POST" "/v2/wallets" (createWallet_body name)
         (createWallet_start name_text w)) = Resolved resp /\
    is_2xx resp /\
    JSON_parse (body_text resp) = Some wallet.
Proof.
  intros P E.
  pose proof (createWallet_outcome name name_text w P) as F.
  rewrite E in F. cbn [fst] in F.
  destruct (network w _ _) as [err|resp]; cbn [outcome_result] in F;
    [discriminate|].
  unfold response_result in F.
  destruct (JSON_parse (body_text resp)) as [v|] eqn:J;
    [|destruct (body resp); discriminate].
  destruct (ok resp) eqn:K;
    [|destruct (get_prop v "message") as [msg|];
      [destruct (ToString (or_else msg (JStr (statusText resp))))|];
      discriminate].
  apply ok_is_2xx in K.
  unfold get_prop in F.
  destruct (nullish v) eqn:V; [discriminate|].
  destruct (ToString (prop_of v "wallet_id")); [|discriminate].
  injection F as <-. split; [exact V|].
  exists resp. split; [reflexivity|]. split; [exact K | exact J].
Qed.

(** X14. [main] never ends in an uncaught error: it either returns or, on
    any failure of a step, reports it and exits with status 1.  It sends
    at least one and at most three requests, and three when it returns. *)
Theorem main_ends (w : World) :
  exists (e : ending) (reqs : list Request),
    fst (main (helper_exports cfg) w) = Ok e /\
    (e = Returned \/ e = Exited 1) /\
    calls (snd (main (helper_exports cfg) w)) = (calls w ++ reqs)%list /\
    (1 <= List.length reqs <= 3)%nat /\
    (e = Returned -> List.length reqs = 3%nat).
Proof.
  enter_main.
  step_createWallet C1 wallet e1 wb;
    [ walk_main wallet wid P2 C2 C3 | ];
    cbn [fst snd calls];
    rewrite ?C3, ?C2, ?C1, <- ?app_assoc;
    do 2 eexists;
    (split; [reflexivity|]);
    (split; [solve [now left | now right]|]);
    (split; [reflexivity|]);
    cbn [List.length app]; (split; [lia|]);
    solve [reflexivity | discriminate].
Qed.

(** X15. The requests of [main], in order: first a POST to [/v2/wallets]
    creating a wallet named [Test Wallet <clock reading>]; a second request
    is sent only after a 2xx answer to the first, and is a POST to the
    addresses of the wallet whose [wallet_id] that answer carried; a third
    is a GET of [/v2/wallets] that carries [{limit: 10, offset: 0}] as its
    body. *)
Theorem main_requests (w : World) :
  exists reqs : list Request,
    calls (snd (main (helper_exports cfg) w)) = (calls w ++ reqs)%list /\
    (forall r1 rest, reqs = r1 :: rest ->
       req_method r1 = "POST" /\
       req_url r1 = BASE_URL cfg ++ "/v2/wallets" /\
       req_body r1
       = JSON_stringify
           (JObj [("name", JStr ("Test Wallet "
                                 ++ Number_toString (clock w (S (ticks w)))));
                  ("wallet_type", JStr "Custodial")])) /\
    (forall r1 r2 rest, reqs = r1 :: r2 :: rest ->
       exists (resp : Response) (wallet : value) (id_text : string),
         network w (List.length (calls w)) r1 = Resolved resp /\
         is_2xx resp /\
         JSON_parse (body_text resp) = Some wallet /\
         ToString (prop_of wallet "wallet_id") = Ok id_text /\
         req_method r2 = "POST" /\
         req_url r2
         = BASE_URL cfg ++ "/v2/wallets/" ++ id_text ++ "/addresses") /\
    (forall r1 r2 r3 rest, reqs = r1 :: r2 :: r3 :: rest ->
       req_method r3 = "GET" /\
       req_url r3 = BASE_URL cfg ++ "/v2/wallets" /\
       req_body r3
       = JSON_stringify (JObj [("limit", JNum (num 10));
                               ("offset", JNum (num 0))])).
Proof.
  enter_main.
  match goal with
  | |- context [createWallet cfg (JStr ?s) ?wa] =>
      pose proof (createWallet_calls cfg (JStr s) s wa eq_refl) as C1;
      pose proof (fun wallet wb =>
                    createWallet_ok (JStr s) wallet s wa wb eq_refl) as O1;
      destruct (createWallet cfg (JStr s) wa) as [[wallet|e1] wb];
      cbn [calls snd network] in C1, O1
  end.
  - destruct (O1 wallet wb eq_refl) as (V & resp & R & K & P). clear O1.
    replace (get_prop wallet "wallet_id")
      with (@Ok value (prop_of wallet "wallet_id"))
      by (unfold get_prop; now rewrite V).
    destruct (ToString (prop_of wallet "wallet_id")) as [id_text|] eqn:P2;
      [ step_getDepositAddress P2 C2 addr e2 wd;
        [ match goal with
          | |- context [ToString ?a] => destruct (ToString a)
          end;
          [ step_apiRequest C3 lst e3 wf;
            [ destruct (get_prop lst "length") as [len|];
              [ destruct (ToString (or_else len (JNum (num 0)))) | ] | ]
          | ]
        | ]
      | ];
      cbn [fst snd calls];
      rewrite ?C3, ?C2, ?C1, <- ?app_assoc;
      eexists; (split; [reflexivity|]); cbn [app];
      (split; [intros ? ? [= <- _]; repeat split|]);
      (split; [first [ intros ? ? ? [= <- <- _]; exists resp, wallet, id_text;
                       split; [exact R|]; split; [exact K|]; split; [exact P|];
                       split; [exact P2|]; split; reflexivity
                     | intros; discriminate ]|]);
      first [ intros ? ? ? ? E; inversion E; subst; repeat split
            | intros; discriminate ].
  - clear O1. cbn [fst snd calls]. rewrite C1.
    eexists; (split; [reflexivity|]); cbn [app];
      (split; [intros ? ? [= <- _]; repeat split|]);
      split; intros; discriminate.
Qed.

(** X16. When the answer to the first request makes [apiRequest] throw (the
    network rejects it, the status is not 2xx, or the body is not JSON),
    [main] stops there: no other request is sent, the error is reported on
    the error stream as [Error occurred: <message>], and the process exits
    with status 1. *)
Theorem main_stops_at_first_failure (w : World) :
  exists (r1 : Request) (rest : list Request),
    calls (snd (main (helper_exports cfg) w)) = (calls w ++ r1 :: rest)%list /\
    forall err : exn,
      outcome_result (network w (List.length (calls w)) r1) = Throw err ->
      rest = [] /\
      fst (main (helper_exports cfg) w) = Ok (Exited 1) /\
      exists before,
        console (snd (main (helper_exports cfg) w))
        = (before
           ++ [(Stderr, ("Error occurred: " ++ emessage err)%string)])%list.
Proof.
  enter_main.
  match goal with
  | |- context [createWallet cfg (JStr ?s) ?wa] =>
      pose proof (createWallet_calls cfg (JStr s) s wa eq_refl) as C1;
      pose proof (createWallet_outcome (JStr s) s wa eq_refl) as F1;
      destruct (createWallet cfg (JStr s) wa) as [[wallet|e1] wb];
      cbn [calls snd fst network] in C1, F1
  end.
  - walk_main wallet wid P2 C2 C3;
      cbn [fst snd calls];
      rewrite ?C3, ?C2, ?C1, <- ?app_assoc; cbn [app];
      do 2 eexists; (split; [reflexivity|]);
      intros err O; rewrite <- ?app_assoc in F1; cbn [app] in F1;
      rewrite O in F1; discriminate F1.
  - cbn [fst snd calls console]. rewrite C1.
    do 2 eexists. split; [reflexivity|].
    intros err O. rewrite O in F1. injection F1 as ->.
    split; [reflexivity|]. split; [reflexivity|].
    eexists. reflexivity.
Qed.

(** X17. The script as a whole: without credentials it dies in [require],
    before anything is logged or sent; with them it is [main] and nothing
    else, so the handler of line 60 for an error escaping [main] never
    runs. *)
Theorem script_is_main_or_load_error (inspect : exn -> string) (env : Env)
    (w : World) :
  match load_config env with
  | Ok loaded =>
      index_js inspect env w = main (helper_exports loaded) w
  | Throw e => index_js inspect env w = (Throw e, w)
  end.
Proof.
  unfold index_js, helper_module.
  destruct (load_config env) as [loaded|e]; [|reflexivity].
  change (mkExports (signRequest loaded) (apiRequest loaded)
            (createWallet loaded) (getDepositAddress loaded)
            (withdrawETH loaded)) with (helper_exports loaded).
  unfold try_catch at 1.
  destruct (main_catches_all (helper_exports loaded) w) as (e & E).
  destruct (main (helper_exports loaded) w) as [r w'].
  cbn [fst] in E. now subst r.
Qed.

End Script.

(** ** Concrete runs of the further properties *)

Section MoreRuns.

#[local] Existing Instance Demo.externals.

(** A refusal with a [message] in its body. *)
Lemma apiRequest_status_error_witness :
  fst (apiRequest Demo.config "GET" "/v2/wallets" JNull
         (Demo.world (Demo.replies 403 "Forbidden"
                        (JObj [("message", JStr "denied")]))))
  = Throw (Error "API request failed with status 403: denied").
Proof.
  refine (apiRequest_status_error Demo.config "GET" "/v2/wallets" JNull
            (Demo.world (Demo.replies 403 "Forbidden"
                           (JObj [("message", JStr "denied")])))
            (mkResponse (num 403) "Forbidden"
               (Some (interp (JSON_stringify
                                (JObj [("message", JStr "denied")])))))
            (JObj [("message", JStr "denied")]) _ _ _ _).
  - reflexivity.
  - vm_compute. reflexivity.
  - unfold is_2xx. cbn. lia.
  - reflexivity.
Defined.

(** A refusal whose [message] cannot be printed. *)
Example apiRequest_unprintable_message :
  fst (apiRequest Demo.config "GET" "/v2/wallets" JNull
         (Demo.world (Resolved
                        (mkResponse (num 403) "Forbidden"
                           (Some (interp (JSON_stringify
                                            (JObj [("message",
                                                    JObj [("toString", JNull)])]))))))))
  = Throw not_primitive.
Proof. vm_compute. reflexivity. Qed.

(** An HTML error page. *)
Lemma apiRequest_unparsable_body_witness :
  fst (apiRequest Demo.config "GET" "/v2/wallets" JNull
         (Demo.world (Resolved (mkResponse (num 502) "Bad Gateway"
                                  (Some "<html>")))))
  = Throw body_unusable.
Proof.
  refine (proj1 (apiRequest_unparsable_body Demo.config "GET" "/v2/wallets"
                   JNull
                   (Demo.world
                      (Resolved (mkResponse (num 502) "Bad Gateway"
                                   (Some "<html>"))))
                   (mkResponse (num 502) "Bad Gateway" (Some "<html>")) _ _)
            "<html>" _).
  - reflexivity.
  - vm_compute. reflexivity.
  - reflexivity.
Defined.

(** An amount that cannot be printed: [withdrawETH] sends nothing. *)
Example withdrawETH_unprintable_amount :
  let run := withdrawETH Demo.config (JStr "w-1") (JStr "0xdef")
               (JObj [("toString", JNum (num 0))])
               (Demo.world (Demo.replies 200 "OK" Demo.wallet)) in
  fst run = Throw not_primitive /\ calls (snd run) = [] /\
  console (snd run)
  = [ (Stdout, "--- Withdrawing ETH to external address ---");
      (Stdout, "Wallet ID: w-1");
      (Stdout, "Destination (external) address: 0xdef") ].
Proof. vm_compute. repeat split. Qed.

(** The API answers with an empty list of addresses. *)
Lemma getDepositAddress_nothing_selected_witness :
  fst (getDepositAddress Demo.config (JStr "w-1")
         (Demo.world (Demo.replies 200 "OK" (JArr []))))
  = Throw (TypeError "Cannot read properties of undefined (reading 'address')").
Proof.
  erewrite (getDepositAddress_nothing_selected Demo.config (JStr "w-1")
              (JArr []) "w-1" (Demo.world (Demo.replies 200 "OK" (JArr [])))).
  - reflexivity.
  - reflexivity.
  - apply injective_projections; cbn [fst snd]; [vm_compute|]; reflexivity.
  - reflexivity.
Defined.

(** Two configurations that differ in key and secret log alike. *)
Lemma apiRequest_logs_no_credentials_witness :
  let w := Demo.world (Demo.replies 201 "Created" Demo.wallet) in
  console (snd (apiRequest Demo.config "POST" "/v2/wallets" (JObj []) w))
  = console (snd (apiRequest (mkConfig "key-2" "decaf" "https://api.cobo.com")
                    "POST" "/v2/wallets" (JObj []) w)).
Proof.
  intros w.
  apply (apiRequest_logs_no_credentials Demo.config
           (mkConfig "key-2" "decaf" "https://api.cobo.com")
           "POST" "/v2/wallets" (JObj []) w); reflexivity.
Defined.

(** [{offset, limit}] and [{limit, offset}]. *)
Lemma params_order_irrelevant_witness :
  signRequest Demo.config "GET" "/v2/wallets" "1700000000000"
    (JObj [("offset", JNum (num 0)); ("limit", JNum (num 10))])
    (Demo.world (Rejected Demo.fetch_failed))
  = signRequest Demo.config "GET" "/v2/wallets" "1700000000000"
      (JObj [("limit", JNum (num 10)); ("offset", JNum (num 0))])
      (Demo.world (Rejected Demo.fetch_failed)).
Proof.
  apply (params_order_irrelevant Demo.config "GET" "/v2/wallets"
           "1700000000000"
           [("offset", JNum (num 0)); ("limit", JNum (num 10))]
           [("limit", JNum (num 10)); ("offset", JNum (num 0))]).
  - repeat constructor; simpl; intuition discriminate.
  - apply perm_swap.
Defined.

(** [{a: '1&b=2'}] signs like [{a: '1', b: '2'}]. *)
Lemma params_not_escaped_witness :
  signRequest Demo.config "POST" "/v2/wallets" "1700000000000"
    (JObj [("a", JStr "1&b=2")]) (Demo.world (Rejected Demo.fetch_failed))
  = signRequest Demo.config "POST" "/v2/wallets" "1700000000000"
      (JObj [("a", JStr "1"); ("b", JStr "2")])
      (Demo.world (Rejected Demo.fetch_failed)).
Proof.
  apply (proj1 (params_not_escaped Demo.config "POST" "/v2/wallets"
                  "1700000000000" "a" "1" "b" "2" (num 0)
                  (Demo.world (Rejected Demo.fetch_failed)) eq_refl)).
Defined.

(** A body of [0] is dropped. *)
Lemma apiRequest_falsy_body_witness :
  apiRequest Demo.config "POST" "/v2/wallets" (JNum (num 0))
    (Demo.world (Rejected Demo.fetch_failed))
  = apiRequest Demo.config "POST" "/v2/wallets" JNull
      (Demo.world (Rejected Demo.fetch_failed)).
Proof.
  apply (proj1 (apiRequest_falsy_body Demo.config "POST" "/v2/wallets"
                  (JNum (num 0)) (Demo.world (Rejected Demo.fetch_failed))
                  eq_refl)).
Defined.

(** The calls of [main] against a network that answers every request,
    the GET with a body included, with the same wallet object. *)
Example main_example :
  let run := main (helper_exports Demo.config)
               (Demo.world (Demo.replies 200 "OK" Demo.wallet)) in
  fst run = Ok Returned /\
  map req_method (calls (snd run)) = ["POST"; "POST"; "GET"] /\
  map req_url (calls (snd run))
  = [ "https://api.cobo.com/v2/wallets";
      "https://api.cobo.com/v2/wallets/w-1/addresses";
      "https://api.cobo.com/v2/wallets" ].
Proof. vm_compute. repeat split. Qed.

End MoreRuns.
